(** * NZC session data collection portal: validator, store handlers, statistics

    A shallow embedding of [src/app.py] (the multi-photo variant of the
    portal) and the properties of it that the specification states.

    Definitions:
    - [Py]        the fragment of Python's dynamic values the handlers touch
                  (JSON values, truthiness, [int()], [float()], [str.strip],
                  exceptions as a result type);
    - [Calendar]  proleptic Gregorian ordinals and the two [strftime]
                  formats used by the statistics route;
    - [Validator] [validate_session_data];
    - [Store]     the two SQLite tables, the upload directory and the
                  route handlers that read and write them;
    - [Sample]    parsers and a valid record for the examples;
    - what the specification says, as definitions to compare the code with,
      and the stores of the examples.

    Theorems, route by route: statistics, validator, [create_session],
    [delete_session], [upload_photos], [get_sessions]. *)

From Stdlib Require Import ZArith Ascii String List Lia Bool.
From stdpp Require Import base option list gmap strings sorting list_numbers.

Local Open Scope string_scope.
Local Open Scope list_scope.
Local Open Scope Z_scope.

(* ===================================================================== *)
(** ** Python values and exceptions *)
(* ===================================================================== *)

Module Py.

(** The exception classes that the modelled code can meet. *)
Inductive exn : Type :=
| ValueError
| TypeError
| OverflowError
| AttributeError
| KeyError.

(** A computation that either returns or raises. *)
Inductive result (A : Type) : Type :=
| Ok (a : A)
| Raise (e : exn).
Arguments Ok {A} a.
Arguments Raise {A} e.

Definition bind {A B : Type} (r : result A) (k : A -> result B) : result B :=
  match r with
  | Ok a => k a
  | Raise e => Raise e
  end.

#[global] Instance result_bind : MBind result := fun A B k r => bind r k.
#[global] Instance result_ret : MRet result := fun A a => Ok a.

(** [except (ValueError, TypeError):] around a block: those two classes are
    handled by [h], every other exception keeps propagating. *)
Definition except_value_type {A : Type} (r : result A) (h : A) : result A :=
  match r with
  | Ok a => Ok a
  | Raise ValueError => Ok h
  | Raise TypeError => Ok h
  | Raise e => Raise e
  end.

(** [except ValueError:] around a block. *)
Definition except_value {A : Type} (r : result A) (h : A) : result A :=
  match r with
  | Ok a => Ok a
  | Raise ValueError => Ok h
  | Raise e => Raise e
  end.

(** A Python float: not-a-number, an infinity, or the finite value
    [m * 2^e].  Every finite double is such a dyadic number, and the code
    only compares floats with integer constants and truncates them, which
    is exact on this representation. *)
Inductive pyfloat : Type :=
| FNan
| FInf (negative : bool)
| FFin (m e : Z).

(** What [request.json] can hold: the result of [json.loads].  A [str] is a
    [string] whose characters are its code points. *)
#[warnings="-register-all"]
Inductive value : Type :=
| VNone
| VBool (b : bool)
| VInt (z : Z)
| VFloat (f : pyfloat)
| VStr (s : string)
| VList (l : list value)
| VDict (l : list (string * value)).

(** Truth value of an object ([if x:], [not x], [x and y]). *)
Definition truthy (v : value) : bool :=
  match v with
  | VNone => false
  | VBool b => b
  | VInt z => negb (z =? 0)
  | VFloat FNan => true
  | VFloat (FInf _) => true
  | VFloat (FFin m _) => negb (m =? 0)
  | VStr s => negb (String.eqb s "")
  | VList l => match l with [] => false | _ => true end
  | VDict l => match l with [] => false | _ => true end
  end.

(** [str.isspace] on one character (code points below 256): the characters
    removed by [str.strip()] and matched by [\s] in a [str] pattern. *)
Definition isspace (c : ascii) : bool :=
  let n := N_of_ascii c in
  ((9 <=? n) && (n <=? 13) || (28 <=? n) && (n <=? 32)
   || (n =? 133) || (n =? 160))%N.

Fixpoint lstrip (s : string) : string :=
  match s with
  | String c s' => if isspace c then lstrip s' else s
  | EmptyString => EmptyString
  end.

Fixpoint rstrip (s : string) : string :=
  match s with
  | String c s' =>
      match rstrip s' with
      | EmptyString => if isspace c then EmptyString else String c EmptyString
      | r => String c r
      end
  | EmptyString => EmptyString
  end.

(** [s.strip()] *)
Definition strip (s : string) : string := rstrip (lstrip s).

(** [len(s)] of a [str], as an integer. *)
Definition len (s : string) : Z := Z.of_nat (String.length s).

(** [str(v).strip() == ''].  The text [str] gives for [None], a bool, a
    number, a list or a dict always holds a non-space character, so only a
    [str] argument can make the test true. *)
Definition str_strip_is_empty (v : value) : bool :=
  match v with
  | VStr s => String.eqb (strip s) ""
  | _ => false
  end.

(** [v.strip()]: only [str] has the method among the JSON types. *)
Definition strip_method (v : value) : result string :=
  match v with
  | VStr s => Ok (strip s)
  | _ => Raise AttributeError
  end.

(** [len(v)]: defined on [str], [list] and [dict]. *)
Definition len_builtin (v : value) : result Z :=
  match v with
  | VStr s => Ok (len s)
  | VList l => Ok (Z.of_nat (List.length l))
  | VDict l => Ok (Z.of_nat (List.length l))
  | _ => Raise TypeError
  end.

(** [int(f)] for a float: truncation toward zero, [ValueError] on NaN and
    [OverflowError] on an infinity. *)
Definition int_of_float (f : pyfloat) : result Z :=
  match f with
  | FNan => Raise ValueError
  | FInf _ => Raise OverflowError
  | FFin m e => if 0 <=? e then Ok (m * 2 ^ e) else Ok (Z.quot m (2 ^ (- e)))
  end.

(** [f < k] and [f > k] for an integer constant [k]; false on NaN. *)
Definition float_lt (f : pyfloat) (k : Z) : bool :=
  match f with
  | FNan => false
  | FInf negative => negative
  | FFin m e => if 0 <=? e then m * 2 ^ e <? k else m <? k * 2 ^ (- e)
  end.

Definition float_gt (f : pyfloat) (k : Z) : bool :=
  match f with
  | FNan => false
  | FInf negative => negb negative
  | FFin m e => if 0 <=? e then k <? m * 2 ^ e else k * 2 ^ (- e) <? m
  end.

(** Integers of magnitude [2^1024 - 2^970] and above round out of the
    double range: [float(z)] raises [OverflowError] on them. *)
Definition float_overflows (z : Z) : bool :=
  2 ^ 1024 - 2 ^ 970 <=? Z.abs z.

Section Conversions.
(** [int(s)] and [float(s)] on a [str] are the interpreter's parsers;
    [None] stands for [ValueError]. *)
Variable int_of_str : string -> option Z.
Variable float_of_str : string -> option pyfloat.

(** [int(v)] *)
Definition int_builtin (v : value) : result Z :=
  match v with
  | VNone => Raise TypeError
  | VBool b => Ok (if b then 1 else 0)
  | VInt z => Ok z
  | VFloat f => int_of_float f
  | VStr s => match int_of_str s with Some z => Ok z | None => Raise ValueError end
  | VList _ => Raise TypeError
  | VDict _ => Raise TypeError
  end.

(** [float(v)].  An integer in range is kept as the dyadic [z * 2^0]:
    rounding to the nearest double is monotone and leaves the constants
    the code compares with unchanged, so the comparisons agree. *)
Definition float_builtin (v : value) : result pyfloat :=
  match v with
  | VNone => Raise TypeError
  | VBool b => Ok (FFin (if b then 1 else 0) 0)
  | VInt z => if float_overflows z then Raise OverflowError else Ok (FFin z 0)
  | VFloat f => Ok f
  | VStr s => match float_of_str s with Some f => Ok f | None => Raise ValueError end
  | VList _ => Raise TypeError
  | VDict _ => Raise TypeError
  end.
End Conversions.

(** [data.get(k)], [data.get(k, d)] and [data[k]] on a dict with [str]
    keys. *)
Definition get (data : gmap string value) (k : string) : value :=
  match data !! k with Some v => v | None => VNone end.

Definition get_default (data : gmap string value) (k : string) (d : value) : value :=
  match data !! k with Some v => v | None => d end.

Definition index (data : gmap string value) (k : string) : result value :=
  match data !! k with Some v => Ok v | None => Raise KeyError end.

(** [v == s] for a [str] constant [s]. *)
Definition eq_str (v : value) (s : string) : bool :=
  match v with
  | VStr t => String.eqb t s
  | _ => false
  end.

(** [v in l] for a list [l] of [str] constants. *)
Definition in_strs (v : value) (l : list string) : bool :=
  existsb (eq_str v) l.

(** ASCII case mapping and [str.title()] on ASCII text. *)
Definition is_lower (c : ascii) : bool :=
  let n := N_of_ascii c in ((97 <=? n) && (n <=? 122))%N.
Definition is_upper (c : ascii) : bool :=
  let n := N_of_ascii c in ((65 <=? n) && (n <=? 90))%N.
Definition to_upper (c : ascii) : ascii :=
  if is_lower c then ascii_of_N (N_of_ascii c - 32) else c.
Definition to_lower (c : ascii) : ascii :=
  if is_upper c then ascii_of_N (N_of_ascii c + 32) else c.

Fixpoint title_from (prev_cased : bool) (s : string) : string :=
  match s with
  | EmptyString => EmptyString
  | String c s' =>
      if is_lower c || is_upper c
      then String (if prev_cased then to_lower c else to_upper c) (title_from true s')
      else String c (title_from false s')
  end.

(** [s.title()] *)
Definition title (s : string) : string := title_from false s.

(** [s.replace(a, b)] for single characters [a] and [b]. *)
Fixpoint replace (a b : ascii) (s : string) : string :=
  match s with
  | EmptyString => EmptyString
  | String c s' => String (if Ascii.eqb c a then b else c) (replace a b s')
  end.

End Py.

(* ===================================================================== *)
(** ** Calendar: [datetime], [timedelta(days=k)] and [strftime] *)
(* ===================================================================== *)

Module Calendar.

(** A naive [datetime]: the proleptic Gregorian ordinal of its date (day 1
    is 0001-01-01, as [date.toordinal()]) and the time elapsed since
    midnight. *)
Record datetime : Type := mkDatetime {
  date_ord : Z;
  time_of_day : Z
}.

(** [a > b] and [a < b] on naive datetimes. *)
Definition dt_gt (a b : datetime) : bool :=
  (date_ord b <? date_ord a)
  || ((date_ord a =? date_ord b) && (time_of_day b <? time_of_day a)).

Definition dt_lt (a b : datetime) : bool := dt_gt b a.

(** [d - timedelta(days=k)] *)
Definition minus_days (d : datetime) (k : Z) : datetime :=
  mkDatetime (date_ord d - k) (time_of_day d).

Definition is_leap (y : Z) : bool :=
  (y mod 4 =? 0) && (negb (y mod 100 =? 0) || (y mod 400 =? 0)).

Definition days_before_year (year : Z) : Z :=
  let y := year - 1 in y * 365 + y / 4 - y / 100 + y / 400.

Definition days_in_month_table : list Z :=
  [31; 28; 31; 30; 31; 30; 31; 31; 30; 31; 30; 31].

Definition days_before_month_table : list Z :=
  [0; 31; 59; 90; 120; 151; 181; 212; 243; 273; 304; 334].

Definition days_before_month (year month : Z) : Z :=
  nth (Z.to_nat (month - 1)) days_before_month_table 0
  + (if (2 <? month) && is_leap year then 1 else 0).

(** [date(year, month, day).toordinal()] *)
Definition ymd2ord (year month day : Z) : Z :=
  days_before_year year + days_before_month year month + day.

(** The inverse, as the [datetime] module computes it: the year, month and
    day of an ordinal. *)
Definition ord2ymd (ord : Z) : Z * Z * Z :=
  let n := ord - 1 in
  let n400 := n / 146097 in
  let n := n mod 146097 in
  let n100 := n / 36524 in
  let n := n mod 36524 in
  let n4 := n / 1461 in
  let n := n mod 1461 in
  let n1 := n / 365 in
  let n := n mod 365 in
  let year := n400 * 400 + 1 + n100 * 100 + n4 * 4 + n1 in
  if (n1 =? 4) || (n100 =? 4) then (year - 1, 12, 31)
  else
    let leapyear := (n1 =? 3) && (negb (n4 =? 24) || (n100 =? 3)) in
    let month := Z.shiftr (n + 50) 5 in
    let preceding :=
      nth (Z.to_nat (month - 1)) days_before_month_table 0
      + (if (2 <? month) && leapyear then 1 else 0) in
    if n <? preceding
    then
      let month' := month - 1 in
      let preceding' :=
        preceding
        - (nth (Z.to_nat (month' - 1)) days_in_month_table 0
           + (if (month' =? 2) && leapyear then 1 else 0)) in
      (year, month', n - preceding' + 1)
    else (year, month, n - preceding + 1).

Definition digit (n : Z) : ascii := ascii_of_N (48 + Z.to_N (n mod 10)).

Definition digits2 (n : Z) : string :=
  String (digit (n / 10)) (String (digit n) EmptyString).

Definition digits4 (n : Z) : string :=
  String (digit (n / 1000)) (String (digit (n / 100)) (digits2 n)).

(** [d.strftime('%Y-%m-%d')], for the four-digit years. *)
Definition strftime_date (d : datetime) : string :=
  let '(y, m, dd) := ord2ymd (date_ord d) in
  digits4 y +:+ "-" +:+ digits2 m +:+ "-" +:+ digits2 dd.

(** [date.weekday()]: Monday is 0. *)
Definition weekday (d : datetime) : Z := (date_ord d + 6) mod 7.

Definition day_abbr_table : list string :=
  ["Mon"; "Tue"; "Wed"; "Thu"; "Fri"; "Sat"; "Sun"].

(** [d.strftime('%a')]: the abbreviated weekday name. *)
Definition strftime_a (d : datetime) : string :=
  nth (Z.to_nat (weekday d)) day_abbr_table "".

(** [datetime(2020, 1, 1)] *)
Definition datetime_2020_1_1 : datetime := mkDatetime (ymd2ord 2020 1 1) 0.

(** Text order of SQLite's default collation: code point by code point. *)
Fixpoint text_le (a b : string) : bool :=
  match a, b with
  | EmptyString, _ => true
  | String _ _, EmptyString => false
  | String x a', String y b' =>
      if (N_of_ascii x <? N_of_ascii y)%N then true
      else if (N_of_ascii y <? N_of_ascii x)%N then false
      else text_le a' b'
  end.

End Calendar.

(* ===================================================================== *)
(** ** The validator: [validate_session_data] *)
(* ===================================================================== *)

Module Validator.
Import Py Calendar.

Definition required_fields : list string :=
  ["school_name"; "session_type"; "location"; "activator"; "year_group";
   "male_participants"; "female_participants"; "session_date";
   "session_duration"].

Definition valid_year_groups : list string :=
  ["Year 1-2"; "Year 3-4"; "Year 5-6"; "Year 7-8"; "Year 9-10";
   "Year 11-13"; "Mixed"].

(** [field.replace('_', ' ').title()] *)
Definition field_label (field : string) : string :=
  title (replace "_" " " field).

(** [f"{label} is required"] *)
Definition required_message (field : string) : string :=
  field_label field +:+ " is required".

(** [if cond: errors.append(msg)] as the list of messages it adds. *)
Definition when (cond : bool) (msg : string) : list string :=
  if cond then [msg] else [].

Fixpoint string_forallb (p : ascii -> bool) (s : string) : bool :=
  match s with
  | EmptyString => true
  | String c s' => p c && string_forallb p s'
  end.

(** One character of the class [[a-zA-Z\s\-\.]]. *)
Definition activator_char (c : ascii) : bool :=
  is_lower c || is_upper c || isspace c
  || Ascii.eqb c "-" || Ascii.eqb c ".".

(** [re.match(r'^[a-zA-Z\s\-\.]+$', s)] succeeds.  The class holds the
    newline, so the [$] that may stop before a final newline accepts
    nothing more than the whole-string match does. *)
Definition activator_pattern_matches (s : string) : bool :=
  negb (String.eqb s "") && string_forallb activator_char s.

Section Validate.
(** The interpreter's parsers ([None] is [ValueError]) and the clock:
    [strptime_ymd s] is the ordinal of the date that
    [datetime.strptime(s, '%Y-%m-%d')] returns, [now] is
    [datetime.now()]. *)
Variable int_of_str : string -> option Z.
Variable float_of_str : string -> option pyfloat.
Variable strptime_ymd : string -> option Z.
Variable now : datetime.

(** The test of the required-fields loop:
    [not data.get(field) or str(data.get(field)).strip() == ''] *)
Definition required_missing (data : gmap string value) (field : string) : bool :=
  negb (truthy (get data field)) || str_strip_is_empty (get data field).

Definition required_errors (data : gmap string value) : list string :=
  flat_map (fun field => when (required_missing data field) (required_message field))
           required_fields.

Definition school_name_errors (data : gmap string value) : result (list string) :=
  if truthy (get data "school_name") then
    v ← index data "school_name";
    s ← strip_method v;
    mret (when (len s <? 2) "School name must be at least 2 characters long"
          ++ when (100 <? len s) "School name must be less than 100 characters")
  else mret [].

Definition session_type_errors (data : gmap string value) : result (list string) :=
  if truthy (get data "session_type") then
    v ← index data "session_type";
    s ← strip_method v;
    mret (when (len s <? 2) "Session type must be at least 2 characters long"
          ++ when (50 <? len s) "Session type must be less than 50 characters")
  else mret [].

Definition location_errors (data : gmap string value) : result (list string) :=
  if truthy (get data "location") then
    v ← index data "location";
    s ← strip_method v;
    mret (when (len s <? 2) "Location must be at least 2 characters long"
          ++ when (100 <? len s) "Location must be less than 100 characters")
  else mret [].

Definition activator_errors (data : gmap string value) : result (list string) :=
  if truthy (get data "activator") then
    v ← index data "activator";
    s ← strip_method v;
    mret (when (len s <? 2) "Activator name must be at least 2 characters long"
          ++ when (50 <? len s) "Activator name must be less than 50 characters"
          ++ when (negb (activator_pattern_matches s))
               "Activator name can only contain letters, spaces, hyphens, and periods")
  else mret [].

Definition year_group_errors (data : gmap string value) : result (list string) :=
  if truthy (get data "year_group") then
    v ← index data "year_group";
    mret (when (negb (in_strs v valid_year_groups)) "Please select a valid year group")
  else mret [].

Definition male_errors (data : gmap string value) : result (list string) :=
  except_value_type
    (male_participants ← int_builtin int_of_str (get_default data "male_participants" (VInt 0));
     mret (when (male_participants <? 0) "Male participants cannot be negative"
           ++ when (1000 <? male_participants) "Male participants seems too high (max 1000)"))
    ["Male participants must be a valid number"].

Definition female_errors (data : gmap string value) : result (list string) :=
  except_value_type
    (female_participants ← int_builtin int_of_str (get_default data "female_participants" (VInt 0));
     mret (when (female_participants <? 0) "Female participants cannot be negative"
           ++ when (1000 <? female_participants) "Female participants seems too high (max 1000)"))
    ["Female participants must be a valid number"].

Definition total_errors (data : gmap string value) : result (list string) :=
  except_value_type
    (m ← int_builtin int_of_str (get_default data "male_participants" (VInt 0));
     f ← int_builtin int_of_str (get_default data "female_participants" (VInt 0));
     let total := m + f in
     mret (when (total =? 0) "Total participants must be greater than 0"
           ++ when (2000 <? total) "Total participants seems too high (max 2000)"))
    [].

Definition duration_errors (data : gmap string value) : result (list string) :=
  except_value_type
    (duration ← int_builtin int_of_str (get_default data "session_duration" (VInt 0));
     mret (when (duration <=? 0) "Session duration must be greater than 0 minutes"
           ++ when (480 <? duration) "Session duration seems too long (max 8 hours)"))
    ["Session duration must be a valid number"].

(** [datetime.strptime(v, '%Y-%m-%d')]: a non-[str] argument is a
    [TypeError]. *)
Definition strptime (v : value) : result datetime :=
  match v with
  | VStr s =>
      match strptime_ymd s with
      | Some ord => Ok (mkDatetime ord 0)
      | None => Raise ValueError
      end
  | _ => Raise TypeError
  end.

Definition session_date_errors (data : gmap string value) : result (list string) :=
  if truthy (get data "session_date") then
    except_value
      (v ← index data "session_date";
       session_date ← strptime v;
       let today := now in
       mret (when (dt_gt session_date today) "Session date cannot be in the future"
             ++ when (dt_lt session_date datetime_2020_1_1) "Session date seems too old"))
      ["Please provide a valid session date"]
  else mret [].

Definition latitude_errors (data : gmap string value) : result (list string) :=
  if truthy (get data "latitude") then
    except_value_type
      (v ← index data "latitude";
       lat ← float_builtin float_of_str v;
       mret (when (float_lt lat (-90) || float_gt lat 90)
               "Latitude must be between -90 and 90"))
      ["Latitude must be a valid number"]
  else mret [].

Definition longitude_errors (data : gmap string value) : result (list string) :=
  if truthy (get data "longitude") then
    except_value_type
      (v ← index data "longitude";
       lng ← float_builtin float_of_str v;
       mret (when (float_lt lng (-180) || float_gt lng 180)
               "Longitude must be between -180 and 180"))
      ["Longitude must be a valid number"]
  else mret [].

Definition teacher_feedback_errors (data : gmap string value) : result (list string) :=
  if truthy (get data "teacher_feedback") then
    v ← index data "teacher_feedback";
    n ← len_builtin v;
    mret (when (1000 <? n) "Teacher feedback must be less than 1000 characters")
  else mret [].

(** [validate_session_data(data)]: the blocks run in source order, each
    appending to [errors]; an exception that no block handles leaves the
    function. *)
Definition validate_session_data (data : gmap string value) : result (list string) :=
  let e_required := required_errors data in
  e_school ← school_name_errors data;
  e_type ← session_type_errors data;
  e_location ← location_errors data;
  e_activator ← activator_errors data;
  e_year ← year_group_errors data;
  e_male ← male_errors data;
  e_female ← female_errors data;
  e_total ← total_errors data;
  e_duration ← duration_errors data;
  e_date ← session_date_errors data;
  e_lat ← latitude_errors data;
  e_lng ← longitude_errors data;
  e_feedback ← teacher_feedback_errors data;
  mret (e_required ++ e_school ++ e_type ++ e_location ++ e_activator
        ++ e_year ++ e_male ++ e_female ++ e_total ++ e_duration ++ e_date
        ++ e_lat ++ e_lng ++ e_feedback).
End Validate.

End Validator.

(* ===================================================================== *)
(** ** The store and the route handlers *)
(* ===================================================================== *)

Module Store.
Import Py Calendar Validator.

(** A row of [sessions] without its [id]: the table is keyed by the
    [INTEGER PRIMARY KEY], so it is a finite map from ids to rows. *)
Record session : Type := mkSession {
  school_name : string;
  session_type : string;
  location : string;
  activator : string;
  year_group : string;
  male_participants : Z;
  female_participants : Z;
  teacher_feedback : option string;
  session_date : string;  (* the text the client sent, compared as text *)
  session_duration : Z;
  date_created : string;
  latitude : option pyfloat;
  longitude : option pyfloat
}.

(** A row of [session_photos] without its [id]. *)
Record photo : Type := mkPhoto {
  session_id : Z;
  filename : string;
  original_filename : string;
  file_path : string;
  file_size : Z;
  upload_date : string
}.

(** The database file: both tables and, for each, the largest row id handed
    out so far ([AUTOINCREMENT] never reuses an id). *)
Record database : Type := mkDatabase {
  sessions : gmap Z session;
  session_photos : gmap Z photo;
  sessions_seq : Z;
  session_photos_seq : Z
}.

(** What the handlers act on: the committed database and the upload
    directory, each file standing for the number of bytes it holds. *)
Record world : Type := mkWorld {
  db : database;
  files : gmap string Z
}.

(** The row id an [AUTOINCREMENT] key gives to a new row: one more than
    the largest id the table holds or has ever held. *)
Definition max_rowid {A : Type} (table : gmap Z A) : Z :=
  foldr Z.max 0 (map fst (map_to_list table)).

Definition next_rowid {A : Type} (seq : Z) (table : gmap Z A) : Z :=
  Z.max seq (max_rowid table) + 1.

(** An open connection: its view of the database, uncommitted changes
    included, and whether foreign keys are enforced on it. *)
Record connection : Type := mkConnection {
  conn_db : database;
  foreign_keys : bool
}.

(** [sqlite3.connect('nzc_activator.db')].  SQLite enforces foreign keys on
    a connection only after [PRAGMA foreign_keys = ON]; the handlers never
    run it, so a connection has the library's default, [fk_default]. *)
Definition connect (fk_default : bool) (w : world) : connection :=
  mkConnection (db w) fk_default.

(** The default of a standard SQLite build (the compile-time option
    [SQLITE_DEFAULT_FOREIGN_KEYS] is 0): foreign keys are not enforced. *)
Definition SQLITE_DEFAULT_FOREIGN_KEYS : bool := false.

(** [conn.commit()] *)
Definition commit (c : connection) (w : world) : world :=
  mkWorld (conn_db c) (files w).

(** The shapes the handlers give to [jsonify]. *)
Record uploaded_photo : Type := mkUploaded {
  up_filename : string;
  up_original_filename : string;
  up_size : Z
}.

Inductive response : Type :=
| Errors (status : Z) (errors : list string)
    (* {'success': False, 'errors': errors}, status *)
| ServerError (e : exn)
    (* {'success': False, 'errors': [f'Server error: {str(e)}']}, 500 *)
| SessionRecorded (new_id : Z)
    (* {'success': True, 'message': 'Session recorded successfully',
        'session_id': new_id} *)
| Message (message : string)
    (* {'success': True, 'message': message} *)
| PhotosUploaded (photos : list uploaded_photo).
    (* {'success': True, 'message': f'{len(photos)} photos uploaded
        successfully', 'photos': photos} *)

(* --------------------------------------------------------------------- *)
(** *** [create_session] *)

Section Create.
Variable int_of_str : string -> option Z.
Variable float_of_str : string -> option pyfloat.
Variable strptime_ymd : string -> option Z.
Variable now : datetime.
(** The text of [CURRENT_TIMESTAMP] when the row is inserted. *)
Variable current_timestamp : string.

(** A value bound to a [TEXT] column.  Only a [str] reaches the INSERT
    (see [validated_fields] below); other types are outside the model. *)
Definition bind_text (v : value) : result string :=
  match v with
  | VStr s => Ok s
  | _ => Raise TypeError
  end.

(** The parameter tuple of the INSERT, evaluated left to right. *)
Definition insert_parameters (data : gmap string value) : result session :=
  v ← index data "school_name"; p_school ← strip_method v;
  v ← index data "session_type"; p_type ← strip_method v;
  v ← index data "location"; p_location ← strip_method v;
  v ← index data "activator"; p_activator ← strip_method v;
  v ← index data "year_group"; p_year ← bind_text v;
  v ← index data "male_participants"; p_male ← int_builtin int_of_str v;
  v ← index data "female_participants"; p_female ← int_builtin int_of_str v;
  p_feedback ←
    (if truthy (get data "teacher_feedback")
     then s ← strip_method (get_default data "teacher_feedback" (VStr "")); mret (Some s)
     else mret None);
  v ← index data "session_date"; p_date ← bind_text v;
  v ← index data "session_duration"; p_duration ← int_builtin int_of_str v;
  p_lat ←
    (if truthy (get data "latitude")
     then v ← index data "latitude"; f ← float_builtin float_of_str v; mret (Some f)
     else mret None);
  p_lng ←
    (if truthy (get data "longitude")
     then v ← index data "longitude"; f ← float_builtin float_of_str v; mret (Some f)
     else mret None);
  mret (mkSession p_school p_type p_location p_activator p_year p_male
          p_female p_feedback p_date p_duration current_timestamp p_lat p_lng).

(** [INSERT INTO sessions ...] followed by [cursor.lastrowid]. *)
Definition insert_session (row : session) (c : connection) : Z * connection :=
  let d := conn_db c in
  let new_id := next_rowid (sessions_seq d) (sessions d) in
  (new_id,
   mkConnection
     (mkDatabase (<[new_id := row]> (sessions d)) (session_photos d)
                 new_id (session_photos_seq d))
     (foreign_keys c)).

(** [create_session()] with [request.json] a mapping [data]. *)
Definition create_session (fk_default : bool) (data : gmap string value)
    (w : world) : response * world :=
  if decide (data = ∅) then (Errors 400 ["No data provided"], w)
  else
    match validate_session_data int_of_str float_of_str strptime_ymd now data with
    | Raise e => (ServerError e, w)
    | Ok validation_errors =>
        match validation_errors with
        | _ :: _ => (Errors 400 validation_errors, w)
        | [] =>
            let conn := connect fk_default w in
            match insert_parameters data with
            | Raise e => (ServerError e, w)
            | Ok row =>
                let '(new_id, conn) := insert_session row conn in
                (SessionRecorded new_id, commit conn w)
            end
        end
    end.
End Create.

(* --------------------------------------------------------------------- *)
(** *** [get_sessions] *)

(** One element of the JSON array that [get_sessions] returns: the stored
    columns and the two derived fields. *)
Record listed_session : Type := mkListed {
  listed_id : Z;
  listed_row : session;
  photo_count : Z;
  total_participants : Z
}.

(** [FROM sessions s LEFT JOIN session_photos sp ON s.id = sp.session_id]:
    each session with each of its photos, or once with NULL when it has
    none. *)
Definition left_join (ss : list (Z * session)) (ps : list (Z * photo))
    : list ((Z * session) * option (Z * photo)) :=
  flat_map
    (fun s =>
       match filter (fun p => session_id p.2 = s.1) ps with
       | [] => [(s, None)]
       | matches => map (fun p => (s, Some p)) matches
       end)
    ss.

(** [COUNT(sp.id)] over a group: the rows whose [sp.id] is not NULL. *)
Definition count_sp_id (group : list ((Z * session) * option (Z * photo))) : Z :=
  Z.of_nat (length (filter (fun r => is_Some r.2) group)).

(** [GROUP BY s.id]: one output row for each distinct [s.id], with the
    session columns of a row of the group and the aggregate over it. *)
Definition group_by_id (joined : list ((Z * session) * option (Z * photo)))
    : list (Z * session * Z) :=
  omap
    (fun i =>
       let group := filter (fun r => r.1.1 = i) joined in
       match group with
       | r :: _ => Some (r.1.1, r.1.2, count_sp_id group)
       | [] => None
       end)
    (remove_dups (map (fun r => r.1.1) joined)).

Definition text_lt (a b : string) : bool := negb (text_le b a).

(** [ORDER BY s.session_date DESC, s.date_created DESC]: [a] may come
    before [b]. *)
Definition listed_before (a b : Z * session * Z) : bool :=
  text_lt (session_date b.1.2) (session_date a.1.2)
  || (String.eqb (session_date a.1.2) (session_date b.1.2)
      && text_le (date_created b.1.2) (date_created a.1.2)).

(** [get_sessions()] *)
Definition get_sessions (w : world) : list listed_session :=
  let rows :=
    merge_sort (fun a b => Is_true (listed_before a b))
      (group_by_id (left_join (map_to_list (sessions (db w)))
                              (map_to_list (session_photos (db w))))) in
  map (fun row =>
         mkListed row.1.1 row.1.2 row.2
           (male_participants row.1.2 + female_participants row.1.2))
      rows.

(* --------------------------------------------------------------------- *)
(** *** [upload_photos] *)

Definition UPLOAD_FOLDER : string := "uploads/photos".
Definition ALLOWED_EXTENSIONS : list string := ["png"; "jpg"; "jpeg"; "gif"].
Definition MAX_FILE_SIZE : Z := 5 * 1024 * 1024.

(** [str.lower()] on one character (code points below 256). *)
Definition lower_char (c : ascii) : ascii :=
  let n := N_of_ascii c in
  if ((65 <=? n) && (n <=? 90)
      || (192 <=? n) && (n <=? 222) && negb (n =? 215))%N
  then ascii_of_N (n + 32) else c.

Fixpoint lower (s : string) : string :=
  match s with
  | EmptyString => EmptyString
  | String c s' => String (lower_char c) (lower s')
  end.

(** [s.rsplit('.', 1)[1]] when ['.' in s]: the text after the last dot. *)
Fixpoint after_last_dot (s : string) : option string :=
  match s with
  | EmptyString => None
  | String c s' =>
      match after_last_dot s' with
      | Some ext => Some ext
      | None => if Ascii.eqb c "." then Some s' else None
      end
  end.

(** [allowed_file(filename)] *)
Definition allowed_file (name : string) : bool :=
  match after_last_dot name with
  | Some ext => existsb (String.eqb (lower ext)) ALLOWED_EXTENSIONS
  | None => false
  end.

(** One part of [request.files.getlist('photos')]: the client's file name
    and the number of bytes in the body. *)
Record upload : Type := mkUpload {
  upload_filename : string;
  upload_bytes : Z
}.

(** How the loop over the files ends. *)
Inductive loop_end : Type :=
| Finished
| TypeRejected (name : string)
| TooLarge (name : string).

(** The state the loop threads: the connection with its uncommitted
    inserts, the upload directory, [uploaded_photos], the number of
    [uuid.uuid4()] calls made, and a record of every path given to
    [file.save] (kept for stating properties; the code has no such list). *)
Record loop_state : Type := mkLoop {
  loop_conn : connection;
  loop_files : gmap string Z;
  uploaded_photos : list uploaded_photo;
  uuid_calls : nat;
  saved_paths : list string
}.

Section Upload.
(** [uuid_hex k] is [uuid.uuid4().hex] of the [k]-th call made while the
    request runs; [current_timestamp] the text of [CURRENT_TIMESTAMP]. *)
Variable uuid_hex : nat -> string.
Variable current_timestamp : string.

(** [INSERT INTO session_photos ...] *)
Definition insert_photo (row : photo) (c : connection) : connection :=
  let d := conn_db c in
  let new_id := next_rowid (session_photos_seq d) (session_photos d) in
  mkConnection
    (mkDatabase (sessions d) (<[new_id := row]> (session_photos d))
                (sessions_seq d) new_id)
    (foreign_keys c).

(** [os.path.getsize(path)] of a file that exists. *)
Definition getsize (fs : gmap string Z) (path : string) : Z :=
  match fs !! path with Some n => n | None => 0 end.

Fixpoint upload_loop (sid : Z) (fl : list upload) (st : loop_state)
    : loop_end * loop_state :=
  match fl with
  | [] => (Finished, st)
  | file :: rest =>
      let name := upload_filename file in
      if String.eqb name "" then upload_loop sid rest st
      else if negb (allowed_file name) then (TypeRejected name, st)
      else
        let file_extension :=
          lower (match after_last_dot name with Some e => e | None => "" end) in
        let unique_filename := uuid_hex (uuid_calls st) +:+ "." +:+ file_extension in
        let path := UPLOAD_FOLDER +:+ "/" +:+ unique_filename in
        (* file.save(file_path) *)
        let fs := <[path := upload_bytes file]> (loop_files st) in
        let file_size := getsize fs path in
        if MAX_FILE_SIZE <? file_size then
          (* os.remove(file_path) *)
          (TooLarge name,
           mkLoop (loop_conn st) (delete path fs) (uploaded_photos st)
                  (S (uuid_calls st)) (saved_paths st ++ [path]))
        else
          let conn :=
            insert_photo
              (mkPhoto sid unique_filename name path file_size current_timestamp)
              (loop_conn st) in
          upload_loop sid rest
            (mkLoop conn fs
                    (uploaded_photos st ++ [mkUploaded unique_filename name file_size])
                    (S (uuid_calls st)) (saved_paths st ++ [path]))
  end.

(** [upload_photos(session_id)]; [photos] is [None] when the request has
    no part named ['photos'].  A return before [conn.commit()] drops the
    connection with its inserts; what was written to the upload directory
    stays.  Besides the response and the world, the result carries the
    paths given to [file.save]. *)
Definition upload_photos (fk_default : bool) (sid : Z)
    (photos : option (list upload)) (w : world)
    : response * world * list string :=
  let conn := connect fk_default w in
  match sessions (conn_db conn) !! sid with
  | None => (Errors 404 ["Session not found"], w, [])
  | Some _ =>
      match photos with
      | None => (Errors 400 ["No photos provided"], w, [])
      | Some fl =>
          let '(how, st) := upload_loop sid fl (mkLoop conn (files w) [] 0%nat []) in
          match how with
          | TypeRejected name =>
              (Errors 400 ["File type not allowed for " +:+ name],
               mkWorld (db w) (loop_files st), saved_paths st)
          | TooLarge name =>
              (Errors 400 ["File " +:+ name +:+ " is too large (max 5MB)"],
               mkWorld (db w) (loop_files st), saved_paths st)
          | Finished =>
              (PhotosUploaded (uploaded_photos st),
               commit (loop_conn st) (mkWorld (db w) (loop_files st)),
               saved_paths st)
          end
      end
  end.
End Upload.

(* --------------------------------------------------------------------- *)
(** *** [delete_session] *)

(** [SELECT file_path FROM session_photos WHERE session_id = ?] *)
Definition photo_paths_of (sid : Z) (d : database) : list string :=
  map (fun p => file_path p.2)
      (filter (fun p => session_id p.2 = sid) (map_to_list (session_photos d))).

(** [if os.path.exists(path): os.remove(path)] *)
Definition remove_if_exists (fs : gmap string Z) (path : string) : gmap string Z :=
  match fs !! path with
  | Some _ => delete path fs
  | None => fs
  end.

(** [DELETE FROM sessions WHERE id = ?].  The [ON DELETE CASCADE] of
    [session_photos.session_id] acts when a session row goes and foreign
    keys are enforced on the connection. *)
Definition sql_delete_session (sid : Z) (c : connection) : connection :=
  let d := conn_db c in
  let photos :=
    match sessions d !! sid with
    | Some _ =>
        if foreign_keys c
        then filter (fun p => session_id p.2 ≠ sid) (session_photos d)
        else session_photos d
    | None => session_photos d
    end in
  mkConnection
    (mkDatabase (delete sid (sessions d)) photos
                (sessions_seq d) (session_photos_seq d))
    (foreign_keys c).

(** [delete_session(session_id)] *)
Definition delete_session (fk_default : bool) (sid : Z) (w : world)
    : response * world :=
  let conn := connect fk_default w in
  let photos := photo_paths_of sid (conn_db conn) in
  let fs := foldl remove_if_exists (files w) photos in
  let conn := sql_delete_session sid conn in
  (Message "Session deleted successfully", commit conn (mkWorld (db w) fs)).

(* --------------------------------------------------------------------- *)
(** *** [get_stats] *)

(** [SUM(...)] over the selected rows: NULL when there is none. *)
Definition sql_sum (xs : list Z) : option Z :=
  match xs with
  | [] => None
  | _ => Some (foldr Z.add 0 xs)
  end.

(** [cursor.fetchone()[0] or 0] *)
Definition or_zero (x : option Z) : Z :=
  match x with
  | Some n => if n =? 0 then 0 else n
  | None => 0
  end.

Definition both_genders (s : session) : Z :=
  male_participants s + female_participants s.

Record day_stat : Type := mkDayStat {
  stat_date : string;
  participants : Z;
  day : string
}.

Record stats : Type := mkStats {
  recent_participants : Z;
  daily_stats : list day_stat
}.

(** The rows of [sessions], in no particular order. *)
Definition session_rows (w : world) : list session :=
  map snd (map_to_list (sessions (db w))).

(** [SELECT SUM(male_participants + female_participants) FROM sessions
     WHERE session_date >= ?] *)
Definition sum_since (rows : list session) (bound : string) : option Z :=
  sql_sum (map both_genders
             (filter (fun s => Is_true (text_le bound (session_date s))) rows)).

(** [... WHERE session_date = ?] *)
Definition sum_on (rows : list session) (date : string) : option Z :=
  sql_sum (map both_genders (filter (fun s => session_date s = date) rows)).

(** [get_stats()], every [datetime.now()] of one request reading [now]. *)
Definition get_stats (now : datetime) (w : world) : stats :=
  let rows := session_rows w in
  let seven_days_ago := strftime_date (minus_days now 7) in
  let recent := or_zero (sum_since rows seven_days_ago) in
  let daily :=
    map (fun i =>
           let date := strftime_date (minus_days now (6 - i)) in
           mkDayStat date (or_zero (sum_on rows date))
                     (strftime_a (minus_days now (6 - i))))
        (seqZ 0 7) in
  mkStats recent daily.

(* --------------------------------------------------------------------- *)
(** *** [init_db] *)

(** The rows of [sample_sessions], the coordinates being the doubles that
    the decimal literals denote. *)
Definition sample_sessions : list session :=
  [mkSession "Auckland Primary School" "School Festive Day" "School Hall"
     "John Smith" "Year 5-6" 8 9 (Some "Great engagement from students")
     "2025-01-16" 60 "2025-01-16 10:00:00"
     (Some (FFin (-648245667457663) (-44))) (Some (FFin 6148936974672173 (-45)));
   mkSession "Wellington High School" "Community Hub Practice" "Gymnasium"
     "Sarah Johnson" "Year 7-8" 65 62 (Some "Excellent participation")
     "2025-01-16" 90 "2025-01-16 14:00:00"
     (Some (FFin (-5810558312982249) (-47))) (Some (FFin 6149390853072119 (-45)));
   mkSession "Christchurch College" "Girl's Cricket Programme" "Sports Field"
     "Mike Wilson" "Year 9-10" 15 13 (Some "Good skill development")
     "2025-01-16" 45 "2025-01-16 16:00:00"
     (Some (FFin (-3063299208416487) (-46))) (Some (FFin 6074096296802019 (-45)));
   mkSession "Hamilton Elementary" "Kiwi Cricket Skills Session" "Community Center"
     "Lisa Brown" "Year 3-4" 12 15 (Some "Very enthusiastic group")
     "2025-01-15" 75 "2025-01-15 11:00:00"
     (Some (FFin (-5318047472482779) (-47))) (Some (FFin 6167092110670011 (-45)));
   mkSession "Dunedin Academy" "In2Cricket Taster" "Main Hall"
     "David Lee" "Year 6-7" 20 18 (Some "Positive feedback")
     "2025-01-15" 120 "2025-01-15 13:00:00"
     (Some (FFin (-3228433540378211) (-46))) (Some (FFin 5999033957387705 (-45)))].

(** [cursor.executemany('INSERT INTO sessions ...', rows)] *)
Definition insert_sessions (rows : list session) (c : connection) : connection :=
  foldl (fun c row => (insert_session row c).2) c rows.

(** [init_db()].  Both [CREATE TABLE IF NOT EXISTS] leave existing tables
    alone; the sample rows go in when [SELECT COUNT( * ) FROM sessions] is
    0. *)
Definition init_db (fk_default : bool) (w : world) : world :=
  let conn := connect fk_default w in
  let conn :=
    if Z.of_nat (size (sessions (conn_db conn))) =? 0
    then insert_sessions sample_sessions conn
    else conn in
  commit conn w.

(* --------------------------------------------------------------------- *)
(** *** [get_session_photos] *)

(** One element of ['photos'] in the reply of [get_session_photos]. *)
Record listed_photo : Type := mkListedPhoto {
  lp_id : Z;
  lp_filename : string;
  lp_original_filename : string;
  lp_file_size : Z;
  lp_upload_date : string;
  lp_url : string
}.

(** [ORDER BY upload_date DESC]: [a] may come before [b]. *)
Definition uploaded_before (a b : Z * photo) : bool :=
  text_le (upload_date b.2) (upload_date a.2).

(** [get_session_photos(session_id)]: the reply is always
    [{'success': True, 'photos': photos}]. *)
Definition get_session_photos (sid : Z) (w : world) : list listed_photo :=
  let rows :=
    merge_sort (fun a b => Is_true (uploaded_before a b))
      (filter (fun p => session_id p.2 = sid)
              (map_to_list (session_photos (db w)))) in
  map (fun row =>
         mkListedPhoto row.1 (filename row.2) (original_filename row.2)
           (file_size row.2) (upload_date row.2)
           ("/uploads/photos/" +:+ filename row.2))
      rows.

(* --------------------------------------------------------------------- *)
(** *** [delete_photo] *)

(** [SELECT filename, file_path FROM session_photos
     WHERE id = ? AND session_id = ?], then [fetchone()]. *)
Definition select_photo (pid sid : Z) (d : database) : option photo :=
  match session_photos d !! pid with
  | Some p => if decide (session_id p = sid) then Some p else None
  | None => None
  end.

(** [DELETE FROM session_photos WHERE id = ? AND session_id = ?] *)
Definition sql_delete_photo (pid sid : Z) (c : connection) : connection :=
  let d := conn_db c in
  mkConnection
    (mkDatabase (sessions d)
       (filter (fun p => ~ (p.1 = pid /\ session_id p.2 = sid)) (session_photos d))
       (sessions_seq d) (session_photos_seq d))
    (foreign_keys c).

(** [delete_photo(session_id, photo_id)] *)
Definition delete_photo (fk_default : bool) (sid pid : Z) (w : world)
    : response * world :=
  let conn := connect fk_default w in
  match select_photo pid sid (conn_db conn) with
  | None => (Errors 404 ["Photo not found"], w)
  | Some p =>
      let fs := remove_if_exists (files w) (file_path p) in
      let conn := sql_delete_photo pid sid conn in
      (Message "Photo deleted successfully", commit conn (mkWorld (db w) fs))
  end.

(* --------------------------------------------------------------------- *)
(** *** [update_session] *)

Section Update.
Variable int_of_str : string -> option Z.
Variable float_of_str : string -> option pyfloat.
Variable strptime_ymd : string -> option Z.
Variable now : datetime.

(** [UPDATE sessions SET school_name=?, ... , longitude=? WHERE id=?]: the
    twelve columns of the statement take the parameters, [date_created]
    keeps its value.  The parameters are those of the INSERT of
    [create_session]. *)
Definition sql_update_session (sid : Z) (p : session) (c : connection) : connection :=
  let d := conn_db c in
  mkConnection
    (mkDatabase
       (alter (fun old =>
                 mkSession (school_name p) (session_type p) (location p)
                   (activator p) (year_group p) (male_participants p)
                   (female_participants p) (teacher_feedback p)
                   (session_date p) (session_duration p) (date_created old)
                   (latitude p) (longitude p))
              sid (sessions d))
       (session_photos d) (sessions_seq d) (session_photos_seq d))
    (foreign_keys c).

(** [update_session(session_id)] with [request.json] a mapping [data]. *)
Definition update_session (fk_default : bool) (sid : Z)
    (data : gmap string value) (w : world) : response * world :=
  if decide (data = ∅) then (Errors 400 ["No data provided"], w)
  else
    match validate_session_data int_of_str float_of_str strptime_ymd now data with
    | Raise e => (ServerError e, w)
    | Ok validation_errors =>
        match validation_errors with
        | _ :: _ => (Errors 400 validation_errors, w)
        | [] =>
            let conn := connect fk_default w in
            match sessions (conn_db conn) !! sid with
            | None => (Errors 404 ["Session not found"], w)
            | Some _ =>
                match insert_parameters int_of_str float_of_str "" data with
                | Raise e => (ServerError e, w)
                | Ok p =>
                    (Message "Session updated successfully",
                     commit (sql_update_session sid p conn) w)
                end
            end
        end
    end.
End Update.

End Store.

(* ===================================================================== *)
(** ** Parsers and inputs for the examples *)
(* ===================================================================== *)

(** The theorems below hold for any [int(str)], [float(str)] and
    [strptime]; the examples need particular ones.  These follow the
    interpreter on ASCII text: decimal integer numerals, dates written
    [YYYY-M-D].  The examples carry coordinates as JSON numbers only, and
    [float_of_str] reads integer numerals and nothing else. *)
Module Sample.
Import Py Calendar Validator Store.

Definition is_digit (c : ascii) : bool :=
  let n := N_of_ascii c in ((48 <=? n) && (n <=? 57))%N.

Definition digit_value (c : ascii) : Z := Z.of_N (N_of_ascii c) - 48.

(** Digits with single underscores between them. *)
Fixpoint numeral (acc : Z) (after_digit : bool) (s : string) : option Z :=
  match s with
  | EmptyString => if after_digit then Some acc else None
  | String c s' =>
      if is_digit c then numeral (10 * acc + digit_value c) true s'
      else if Ascii.eqb c "_" && after_digit then numeral acc false s'
      else None
  end.

Definition int_of_str (s : string) : option Z :=
  match strip s with
  | String "+" r => numeral 0 false r
  | String "-" r => Z.opp <$> numeral 0 false r
  | t => numeral 0 false t
  end.

Definition float_of_str (s : string) : option pyfloat :=
  (fun z => FFin z 0) <$> int_of_str s.

(** The month and day groups of the pattern that [strptime] builds for
    ['%Y-%m-%d']: [1[0-2]|0[1-9]|[1-9]] and
    [3[01]|[12]\d|0[1-9]|[1-9]| [1-9]]. *)
Definition month_group (s : string) : option (Z * string) :=
  match s with
  | String a (String b (String "-" r)) =>
      if is_digit a && is_digit b then
        let m := 10 * digit_value a + digit_value b in
        if (1 <=? m) && (m <=? 12) then Some (m, r) else None
      else None
  | String a (String "-" r) =>
      if is_digit a && (1 <=? digit_value a) then Some (digit_value a, r) else None
  | _ => None
  end.

Definition day_group (s : string) : option Z :=
  match s with
  | String a (String b EmptyString) =>
      if is_digit a && is_digit b then
        let d := 10 * digit_value a + digit_value b in
        if (1 <=? d) && (d <=? 31) then Some d else None
      else if Ascii.eqb a " " && is_digit b && (1 <=? digit_value b)
      then Some (digit_value b) else None
  | String a EmptyString =>
      if is_digit a && (1 <=? digit_value a) then Some (digit_value a) else None
  | _ => None
  end.

Definition days_in_month (year month : Z) : Z :=
  nth (Z.to_nat (month - 1)) days_in_month_table 0
  + (if (month =? 2) && is_leap year then 1 else 0).

Definition strptime_ymd (s : string) : option Z :=
  match s with
  | String a (String b (String c (String d (String "-" r)))) =>
      if is_digit a && is_digit b && is_digit c && is_digit d then
        let y := 1000 * digit_value a + 100 * digit_value b
                 + 10 * digit_value c + digit_value d in
        '(m, r') ← month_group r;
        dd ← day_group r';
        if (1 <=? y) && (dd <=? days_in_month y m)
        then Some (ymd2ord y m dd) else None
      else None
  | _ => None
  end.

(** The clock of the examples: 16 January 2025, 12:00. *)
Definition noon_2025_01_16 : datetime :=
  mkDatetime (ymd2ord 2025 1 16) (12 * 3600).

Definition validate : gmap string value -> result (list string) :=
  validate_session_data int_of_str float_of_str strptime_ymd noon_2025_01_16.

(** A record that passes every rule: the first sample row of [init_db]
    as a client would post it. *)
Definition auckland : gmap string value :=
  list_to_map
    [("school_name", VStr "Auckland Primary School");
     ("session_type", VStr "School Festive Day");
     ("location", VStr "School Hall");
     ("activator", VStr "John Smith");
     ("year_group", VStr "Year 5-6");
     ("male_participants", VInt 8);
     ("female_participants", VInt 9);
     ("teacher_feedback", VStr "Great engagement from students");
     ("session_date", VStr "2025-01-16");
     ("session_duration", VInt 60)].

End Sample.

(* ===================================================================== *)
(** ** What the specification says, and the data of the examples *)
(* ===================================================================== *)

Import Py Calendar Validator Store.

(** *** Statistics *)

(** Following the specification: the sum of both-gender counts over the
    records dated exactly the calendar day of ordinal [ord].  The day of a
    record is the one its [session_date] denotes, read as the validator
    reads it ([strptime] with ['%Y-%m-%d']). *)
Definition participants_on (strptime_ymd : string -> option Z)
    (rows : list session) (ord : Z) : Z :=
  foldr Z.add 0
    (map both_genders
       (filter (fun s => strptime_ymd (session_date s) = Some ord) rows)).

(** Following the specification: the entry of the daily series for the day
    [back] days before [as_of]. *)
Definition day_entry (strptime_ymd : string -> option Z) (as_of : datetime)
    (rows : list session) (back : Z) : day_stat :=
  let d := minus_days as_of back in
  mkDayStat (strftime_date d) (participants_on strptime_ymd rows (date_ord d))
            (strftime_a d).

(** What the second query of [get_stats] selects instead: the records whose
    stored [session_date] is, character for character, the text [date]. *)
Definition participants_with_text (rows : list session) (date : string) : Z :=
  foldr Z.add 0 (map both_genders (filter (fun s => session_date s = date) rows)).

(** Following the specification: a record lies in the inclusive window
    from [as_of - 6] through [as_of]. *)
Definition in_window (as_of : datetime) (s : session) : bool :=
  text_le (strftime_date (minus_days as_of 6)) (session_date s)
  && text_le (session_date s) (strftime_date as_of).

Definition window_total (as_of : datetime) (rows : list session) : Z :=
  foldr Z.add 0 (map both_genders (filter (fun s => Is_true (in_window as_of s)) rows)).

(** *** Inputs of the validator *)







Section Validated.
Variable int_of_str : string -> option Z.
Variable float_of_str : string -> option pyfloat.

(** What a mapping that passes validation holds in the fields the INSERT
    reads. *)
Record validated (data : gmap string value) : Prop := mkValidated {
  v_required : Forall (fun field => truthy (get data field) = true) required_fields;
  v_school : exists s, get data "school_name" = VStr s;
  v_type : exists s, get data "session_type" = VStr s;
  v_location : exists s, get data "location" = VStr s;
  v_activator : exists s, get data "activator" = VStr s;
  v_year : exists s, get data "year_group" = VStr s;
  v_male : exists n, int_builtin int_of_str (get data "male_participants") = Ok n;
  v_female : exists n, int_builtin int_of_str (get data "female_participants") = Ok n;
  v_date : exists s, get data "session_date" = VStr s;
  v_duration : exists n, int_builtin int_of_str (get data "session_duration") = Ok n;
  v_latitude :
    truthy (get data "latitude") = true ->
    exists x, float_builtin float_of_str (get data "latitude") = Ok x;
  v_longitude :
    truthy (get data "longitude") = true ->
    exists x, float_builtin float_of_str (get data "longitude") = Ok x
}.
End Validated.

(** *** Stored rows *)

(** The attachment rows that reference session [sid]. *)
Definition photos_of (sid : Z) (d : database) : list (Z * photo) :=
  filter (fun p => session_id p.2 = sid) (map_to_list (session_photos d)).

(** The joined rows of one session. *)
Definition join_rows (ps : list (Z * photo)) (s : Z * session)
    : list ((Z * session) * option (Z * photo)) :=
  match filter (fun p => session_id p.2 = s.1) ps with
  | [] => [(s, None)]
  | matches => map (fun p => (s, Some p)) matches
  end.

(** The number of attachment rows that reference a session. *)
Definition photos_owned (w : world) (sid : Z) : Z :=
  Z.of_nat (length (photos_of sid (db w))).

(** Following the query: [a] may stand before [b] when its session date is
    the later one in text order, or the dates are equal and it was created
    no earlier. *)
Definition newer_first (a b : listed_session) : Prop :=
  text_lt (session_date (listed_row b)) (session_date (listed_row a)) = true
  \/ (session_date (listed_row a) = session_date (listed_row b)
      /\ text_le (date_created (listed_row b)) (date_created (listed_row a)) = true).

(** The text holds no dot. *)
Definition no_dot (s : string) : bool :=
  string_forallb (fun c => negb (Ascii.eqb c ".")) s.

(** The path under which an upload with stored name [name] is saved. *)
Definition stored_path (name : string) : string :=
  UPLOAD_FOLDER +:+ "/" +:+ name.

(** What holds of an entry of the reply of a successful upload. *)
Definition accepted_upload (u : uploaded_photo) : Prop :=
  up_size u <= MAX_FILE_SIZE
  /\ allowed_file (up_original_filename u) = true
  /\ allowed_file (up_filename u) = true.

(** *** Limits of a stored record *)

(** What the validator's rules allow in a row of [sessions]: the lengths of
    the four texts, the characters of the activator's name, a year group of
    the list, the bounds of the counts and of the duration, a date that
    [strptime] reads and that lies between 2020-01-01 and [now], and
    coordinates and feedback that the comparisons of the code let through. *)
Definition within_limits (strptime_ymd : string -> option Z) (now : datetime)
    (row : session) : Prop :=
  2 <= len (school_name row) <= 100
  /\ 2 <= len (session_type row) <= 50
  /\ 2 <= len (location row) <= 100
  /\ 2 <= len (activator row) <= 50
  /\ activator_pattern_matches (activator row) = true
  /\ year_group row ∈ valid_year_groups
  /\ 0 <= male_participants row <= 1000
  /\ 0 <= female_participants row <= 1000
  /\ 0 < male_participants row + female_participants row
  /\ 1 <= session_duration row <= 480
  /\ (exists ord, strptime_ymd (session_date row) = Some ord
        /\ dt_gt (mkDatetime ord 0) now = false
        /\ date_ord datetime_2020_1_1 <= ord)
  /\ (forall x, latitude row = Some x ->
        float_lt x (-90) = false /\ float_gt x 90 = false)
  /\ (forall x, longitude row = Some x ->
        float_lt x (-180) = false /\ float_gt x 180 = false)
  /\ (forall s, teacher_feedback row = Some s -> len s <= 1000).

(** *** Stores and requests of the examples *)

(** A session held on [date] with 8 boys and 9 girls. *)
Definition festive_day (date : string) : session :=
  mkSession "Auckland Primary School" "School Festive Day" "School Hall"
            "John Smith" "Year 5-6" 8 9 (Some "Great engagement from students")
            date 60 (date +:+ " 10:00:00") None None.

(** A store whose only session was held on 9 January 2025. *)
Definition store_2025_01_09 : world :=
  mkWorld (mkDatabase {[1 := festive_day "2025-01-09"]} ∅ 1 0) ∅.

(** A mapping with several malformed fields of the expected types. *)
Definition malformed_but_typed : gmap string value :=
  list_to_map
    [("school_name", VStr "A");
     ("activator", VStr "R2-D2");
     ("year_group", VInt 7);
     ("male_participants", VStr "abc");
     ("female_participants", VList []);
     ("session_date", VStr "yesterday");
     ("session_duration", VFloat FNan);
     ("latitude", VDict [("deg", VInt 12)]);
     ("longitude", VInt 200)].

(** The store before anything is recorded. *)
Definition empty_store : world := mkWorld (mkDatabase ∅ ∅ 0 0) ∅.

Definition sample_create : gmap string value -> world -> response * world :=
  create_session Sample.int_of_str Sample.float_of_str Sample.strptime_ymd
    Sample.noon_2025_01_16 "2025-01-16 12:00:00" SQLITE_DEFAULT_FOREIGN_KEYS.

(** The sample record with its date written without the leading zero of
    the month, and the store after it is recorded on an empty database. *)
Definition unpadded : gmap string value :=
  <["session_date" := VStr "2025-1-16"]> Sample.auckland.

Definition store_unpadded : world :=
  mkWorld
    (mkDatabase
       {[1 := mkSession "Auckland Primary School" "School Festive Day"
                "School Hall" "John Smith" "Year 5-6" 8 9
                (Some "Great engagement from students") "2025-1-16" 60
                "2025-01-16 12:00:00" None None]}
       ∅ 1 0)
    ∅.

(** The sample record with a count out of range and a date in the future. *)
Definition overbooked : gmap string value :=
  <["male_participants" := VInt 1200]>
    (<["session_date" := VStr "2025-02-01"]> Sample.auckland).

(** A store with one session, one photo attached to it, and the photo's
    file. *)
Definition team_photo : photo :=
  mkPhoto 1 "0f8fad5bd9cb469fa16570867728950e.png" "team.png"
          "uploads/photos/0f8fad5bd9cb469fa16570867728950e.png" 2048
          "2025-01-16 12:05:00".

Definition store_with_photo : world :=
  mkWorld (mkDatabase {[1 := festive_day "2025-01-16"]} {[1 := team_photo]} 1 1)
          {["uploads/photos/0f8fad5bd9cb469fa16570867728950e.png" := 2048]}.

(** The [uuid4().hex] values of the examples. *)
Definition sample_uuid_hex (k : nat) : string :=
  nth k ["0f8fad5bd9cb469fa16570867728950e"; "7c9e6679742540de944be07fc1f90ae7"]
        "16fd2706854d4d3fb4b1f6a3c2d9e8a0".

(** A store with one session and no photo. *)
Definition store_with_session : world :=
  mkWorld (mkDatabase {[1 := festive_day "2025-01-16"]} ∅ 1 0) ∅.

(** A small picture followed by one of 5 MiB and one byte. *)
Definition two_uploads : list upload :=
  [mkUpload "team.png" 2048; mkUpload "banner.png" (MAX_FILE_SIZE + 1)].

Definition sample_upload : Z -> option (list upload) -> world -> response * world * list string :=
  upload_photos sample_uuid_hex "2025-01-16 12:05:00" SQLITE_DEFAULT_FOREIGN_KEYS.

(** A store with three sessions: the first has one photo, the second two,
    the third none. *)
Definition store_three_sessions : world :=
  mkWorld
    (mkDatabase
       {[1 := festive_day "2025-01-15"; 2 := festive_day "2025-01-16";
         3 := festive_day "2025-01-14"]}
       {[1 := team_photo;
         2 := mkPhoto 2 "7c9e6679742540de944be07fc1f90ae7.jpg" "field.jpg"
                "uploads/photos/7c9e6679742540de944be07fc1f90ae7.jpg" 4096
                "2025-01-16 12:06:00";
         3 := mkPhoto 2 "16fd2706854d4d3fb4b1f6a3c2d9e8a0.gif" "wave.gif"
                "uploads/photos/16fd2706854d4d3fb4b1f6a3c2d9e8a0.gif" 512
                "2025-01-16 12:07:00"]}
       3 3)
    ∅.

(* ===================================================================== *)
(** ** The calendar and the parsers of the examples *)
(* ===================================================================== *)

Example ymd2ord_2025_01_16 : ymd2ord 2025 1 16 = 739267.
Proof. reflexivity. Qed.

Example ord2ymd_739267 : ord2ymd 739267 = (2025, 1, 16).
Proof. reflexivity. Qed.

Example strftime_date_739260 :
  strftime_date (mkDatetime 739260 0) = "2025-01-09".
Proof. reflexivity. Qed.

Example strftime_a_739267 : strftime_a (mkDatetime 739267 0) = "Thu".
Proof. reflexivity. Qed.

Example ord2ymd_leap_day : ord2ymd (ymd2ord 2024 2 29) = (2024, 2, 29).
Proof. reflexivity. Qed.

Example ord2ymd_year_end : ord2ymd (ymd2ord 2024 12 31) = (2024, 12, 31).
Proof. reflexivity. Qed.

Example int_of_str_padded : Sample.int_of_str " 1_000 " = Some 1000.
Proof. reflexivity. Qed.

Example int_of_str_abc : Sample.int_of_str "abc" = None.
Proof. reflexivity. Qed.

Example strptime_ymd_short :
  Sample.strptime_ymd "2025-1-5" = Some (ymd2ord 2025 1 5).
Proof. reflexivity. Qed.

Example strptime_ymd_feb_30 : Sample.strptime_ymd "2025-02-30" = None.
Proof. reflexivity. Qed.

Example auckland_is_valid : Sample.validate Sample.auckland = Ok [].
Proof. vm_compute. reflexivity. Qed.

(* ===================================================================== *)
(** ** Properties of the statistics route *)
(* ===================================================================== *)

Lemma or_zero_sql_sum (xs : list Z) : or_zero (sql_sum xs) = foldr Z.add 0 xs.
Proof.
  destruct xs as [|x xs]; [reflexivity|].
  unfold sql_sum, or_zero.
  destruct (Z.eqb_spec (foldr Z.add 0 (x :: xs)) 0) as [E|_]; [|reflexivity].
  now rewrite E.
Qed.

Lemma or_zero_sum_on (rows : list session) (date : string) :
  or_zero (sum_on rows date) = participants_with_text rows date.
Proof. apply or_zero_sql_sum. Qed.

(** What the first query of [get_stats] computes: every record whose date
    text is not below the text of [now - 7 days], with no upper bound. *)
Lemma recent_participants_since (now : datetime) (w : world) :
  recent_participants (get_stats now w)
  = foldr Z.add 0
      (map both_genders
         (filter (fun s => Is_true (text_le (strftime_date (minus_days now 7))
                                            (session_date s)))
                 (session_rows w))).
Proof. apply or_zero_sql_sum. Qed.

(** What the loop of [get_stats] computes, for every store and every
    [as_of]: seven entries, for the days [as_of - 6], ..., [as_of] in that
    order, each with the date text, the abbreviated weekday name, and the
    sum over the records whose stored date is that very text. *)
Lemma daily_stats_entries (as_of : datetime) (w : world) :
  daily_stats (get_stats as_of w)
  = map (fun back =>
           let d := minus_days as_of back in
           mkDayStat (strftime_date d)
                     (participants_with_text (session_rows w) (strftime_date d))
                     (strftime_a d))
        [6; 5; 4; 3; 2; 1; 0]
  /\ length (daily_stats (get_stats as_of w)) = 7%nat
  /\ map (fun e => stat_date e) (daily_stats (get_stats as_of w))
     = map (fun k => strftime_date (mkDatetime (date_ord as_of - 6 + k) (time_of_day as_of)))
           [0; 1; 2; 3; 4; 5; 6].
Proof.
  assert (H : daily_stats (get_stats as_of w)
              = map (fun back =>
                       let d := minus_days as_of back in
                       mkDayStat (strftime_date d)
                                 (participants_with_text (session_rows w)
                                    (strftime_date d))
                                 (strftime_a d))
                    [6; 5; 4; 3; 2; 1; 0]).
  { unfold get_stats. cbn [daily_stats].
    change (seqZ 0 7) with [0; 1; 2; 3; 4; 5; 6].
    cbn [map]. now rewrite !or_zero_sum_on. }
  split; [exact H|]. rewrite H. split; [reflexivity|].
  cbn [map stat_date]. unfold minus_days. cbn [date_ord time_of_day].
  repeat (f_equal; try (f_equal; f_equal; lia)).
Qed.

(** The entry of a day follows the specification whenever the stored date
    texts and the day's text agree exactly where the days they denote
    agree: the two sums then run over the same records. *)
Lemma day_entry_agrees (strptime_ymd : string -> option Z) (as_of : datetime)
    (rows : list session) (back : Z) :
  Forall (fun s =>
            session_date s = strftime_date (minus_days as_of back)
            <-> strptime_ymd (session_date s)
                = Some (date_ord (minus_days as_of back)))
         rows ->
  participants_with_text rows (strftime_date (minus_days as_of back))
  = participants (day_entry strptime_ymd as_of rows back).
Proof.
  unfold day_entry, participants_on, participants_with_text. cbn [participants].
  induction 1 as [|s rows Hs _ IH]; [reflexivity|].
  rewrite !filter_cons.
  destruct (decide (session_date s = _)) as [E|E];
    destruct (decide (strptime_ymd (session_date s) = _)) as [P|P];
    cbn [map foldr]; try (now rewrite IH); tauto.
Qed.

Lemma participants_on_no_record (strptime_ymd : string -> option Z)
    (rows : list session) (ord : Z) :
  Forall (fun s => strptime_ymd (session_date s) <> Some ord) rows ->
  participants_on strptime_ymd rows ord = 0.
Proof.
  unfold participants_on. induction 1 as [|s rows Hs _ IH]; [reflexivity|].
  rewrite filter_cons.
  destruct (decide (strptime_ymd (session_date s) = Some ord)); [contradiction|exact IH].
Qed.

(** C7.  A record dated "2025-1-16" passes the validator, whose [strptime]
    reads it as 16 January 2025, and [create_session] stores the text as it
    came.  On 16 January 2025 the daily series of the specification has
    seven entries whose last one, for that day, carries the record's 17
    participants; [get_stats] returns seven entries with the same dates and
    weekday names, but compares the stored text with "2025-01-16" and
    reports 0 participants for every day. *)
Theorem unpadded_date_not_counted :
  Sample.validate unpadded = Ok []
  /\ sample_create unpadded empty_store = (SessionRecorded 1, store_unpadded)
  /\ map session_date (session_rows store_unpadded) = ["2025-1-16"]
  /\ Sample.strptime_ymd "2025-1-16" = Some (date_ord Sample.noon_2025_01_16)
  /\ map (day_entry Sample.strptime_ymd Sample.noon_2025_01_16
            (session_rows store_unpadded)) [6; 5; 4; 3; 2; 1; 0]
     = [mkDayStat "2025-01-10" 0 "Fri"; mkDayStat "2025-01-11" 0 "Sat";
        mkDayStat "2025-01-12" 0 "Sun"; mkDayStat "2025-01-13" 0 "Mon";
        mkDayStat "2025-01-14" 0 "Tue"; mkDayStat "2025-01-15" 0 "Wed";
        mkDayStat "2025-01-16" 17 "Thu"]
  /\ daily_stats (get_stats Sample.noon_2025_01_16 store_unpadded)
     = [mkDayStat "2025-01-10" 0 "Fri"; mkDayStat "2025-01-11" 0 "Sat";
        mkDayStat "2025-01-12" 0 "Sun"; mkDayStat "2025-01-13" 0 "Mon";
        mkDayStat "2025-01-14" 0 "Tue"; mkDayStat "2025-01-15" 0 "Wed";
        mkDayStat "2025-01-16" 0 "Thu"].
Proof. vm_compute. repeat split; reflexivity. Qed.

(** C1.  On 16 January 2025 the seven-day window runs from 10 to 16
    January, so a session of 9 January lies outside it and the window total
    is 0; [get_stats] reports its 17 participants as recent, because its
    bound is [now - 7 days]. *)
Theorem recent_total_counts_eighth_day :
  strftime_date (minus_days Sample.noon_2025_01_16 6) = "2025-01-10"
  /\ window_total Sample.noon_2025_01_16 (session_rows store_2025_01_09) = 0
  /\ recent_participants (get_stats Sample.noon_2025_01_16 store_2025_01_09) = 17
  /\ map participants (daily_stats (get_stats Sample.noon_2025_01_16 store_2025_01_09))
     = [0; 0; 0; 0; 0; 0; 0].
Proof. vm_compute. repeat split; reflexivity. Qed.

(* ===================================================================== *)
(** ** Properties of the validator *)
(* ===================================================================== *)

(** *** The required-fields loop *)

Lemma required_message_injective (f g : string) :
  f ∈ required_fields -> g ∈ required_fields ->
  required_message f = required_message g -> f = g.
Proof.
  unfold required_fields. intros Hf Hg.
  repeat (apply elem_of_cons in Hf as [->|Hf]);
    try (now apply elem_of_nil in Hf);
    repeat (apply elem_of_cons in Hg as [->|Hg]);
    try (now apply elem_of_nil in Hg);
    vm_compute; intros E; first [reflexivity | discriminate E].
Qed.

(** The loop emits the message of a mandatory field exactly when the value
    is falsy ([None], [False], a zero, an empty string, list or dict) or a
    string of white space. *)
Lemma required_errors_spec (data : gmap string value) (field : string) :
  field ∈ required_fields ->
  required_message field ∈ required_errors data
  <-> required_missing data field = true.
Proof.
  intros Hf. unfold required_errors. rewrite list_elem_of_In, in_flat_map.
  split.
  - intros (g & Hg & Hin). unfold when in Hin.
    destruct (required_missing data g) eqn:M; [|destruct Hin].
    destruct Hin as [E|[]].
    apply list_elem_of_In in Hg.
    now rewrite (required_message_injective field g Hf Hg (eq_sym E)).
  - intros M. exists field. split; [now apply list_elem_of_In|].
    unfold when. rewrite M. now left.
Qed.

Section ValidatorProperties.
Variable int_of_str : string -> option Z.
Variable float_of_str : string -> option pyfloat.
Variable strptime_ymd : string -> option Z.
Variable now : datetime.

Local Abbreviation validate :=
  (validate_session_data int_of_str float_of_str strptime_ymd now).

(** The messages of the required-fields loop come first. *)
Lemma validate_required_first (data : gmap string value) (errs : list string) :
  validate data = Ok errs ->
  exists rest, errs = required_errors data ++ rest.
Proof.
  unfold validate_session_data. intros H.
  repeat match type of H with
         | mbind _ ?r = Ok _ => destruct r; cbn in H; [|discriminate H]
         end.
  injection H as <-. eauto.
Qed.

(** *** The participant counts *)


(** A count on which [int()] fails with [ValueError] or [TypeError] gets
    the type message alone. *)
Lemma male_errors_unparsable (data : gmap string value) (e : exn) :
  int_builtin int_of_str (get_default data "male_participants" (VInt 0)) = Raise e ->
  e = ValueError \/ e = TypeError ->
  male_errors int_of_str data = Ok ["Male participants must be a valid number"].
Proof. unfold male_errors. intros -> [-> | ->]; reflexivity. Qed.

Lemma female_errors_unparsable (data : gmap string value) (e : exn) :
  int_builtin int_of_str (get_default data "female_participants" (VInt 0)) = Raise e ->
  e = ValueError \/ e = TypeError ->
  female_errors int_of_str data = Ok ["Female participants must be a valid number"].
Proof. unfold female_errors. intros -> [-> | ->]; reflexivity. Qed.

(** A count that parses gets range messages only: none within
    [0, 1000], exactly one outside. *)
Lemma male_errors_parsed (data : gmap string value) (n : Z) :
  int_builtin int_of_str (get_default data "male_participants" (VInt 0)) = Ok n ->
  male_errors int_of_str data
  = Ok (if n <? 0 then ["Male participants cannot be negative"]
        else if 1000 <? n then ["Male participants seems too high (max 1000)"]
        else []).
Proof.
  unfold male_errors. intros ->. cbn. unfold when.
  destruct (Z.ltb_spec n 0), (Z.ltb_spec 1000 n); try reflexivity; lia.
Qed.

Lemma female_errors_parsed (data : gmap string value) (n : Z) :
  int_builtin int_of_str (get_default data "female_participants" (VInt 0)) = Ok n ->
  female_errors int_of_str data
  = Ok (if n <? 0 then ["Female participants cannot be negative"]
        else if 1000 <? n then ["Female participants seems too high (max 1000)"]
        else []).
Proof.
  unfold female_errors. intros ->. cbn. unfold when.
  destruct (Z.ltb_spec n 0), (Z.ltb_spec 1000 n); try reflexivity; lia.
Qed.

(** The total is checked when both counts parse ... *)
Lemma total_errors_parsed (data : gmap string value) (m f : Z) :
  int_builtin int_of_str (get_default data "male_participants" (VInt 0)) = Ok m ->
  int_builtin int_of_str (get_default data "female_participants" (VInt 0)) = Ok f ->
  total_errors int_of_str data
  = Ok (when (m + f =? 0) "Total participants must be greater than 0"
        ++ when (2000 <? m + f) "Total participants seems too high (max 2000)").
Proof. unfold total_errors. intros -> ->. reflexivity. Qed.

(** ... and adds nothing when [int()] fails on either with [ValueError]
    or [TypeError]. *)
Lemma total_errors_skipped_male (data : gmap string value) (e : exn) :
  int_builtin int_of_str (get_default data "male_participants" (VInt 0)) = Raise e ->
  e = ValueError \/ e = TypeError ->
  total_errors int_of_str data = Ok [].
Proof. unfold total_errors. intros -> [-> | ->]; reflexivity. Qed.

Lemma total_errors_skipped_female (data : gmap string value) (m : Z) (e : exn) :
  int_builtin int_of_str (get_default data "male_participants" (VInt 0)) = Ok m ->
  int_builtin int_of_str (get_default data "female_participants" (VInt 0)) = Raise e ->
  e = ValueError \/ e = TypeError ->
  total_errors int_of_str data = Ok [].
Proof. unfold total_errors. intros -> -> [-> | ->]; reflexivity. Qed.
End ValidatorProperties.

(** *** Inputs on which the validator returns *)

Lemma index_get (data : gmap string value) (k : string) :
  truthy (get data k) = true -> index data k = Ok (get data k).
Proof. unfold get, index. destruct (data !! k); [reflexivity|discriminate]. Qed.




Section Totality.
Variable int_of_str : string -> option Z.
Variable float_of_str : string -> option pyfloat.
Variable strptime_ymd : string -> option Z.
Variable now : datetime.







End Totality.


Example malformed_but_typed_messages :
  Sample.validate malformed_but_typed
  = Ok ["Session Type is required"; "Location is required";
        "Female Participants is required";
        "School name must be at least 2 characters long";
        "Activator name can only contain letters, spaces, hyphens, and periods";
        "Please select a valid year group";
        "Male participants must be a valid number";
        "Female participants must be a valid number";
        "Session duration must be a valid number";
        "Please provide a valid session date";
        "Latitude must be a valid number";
        "Longitude must be between -180 and 180"].
Proof. vm_compute. reflexivity. Qed.


(** The same for a number in [teacher_feedback], at [len(...)]. *)
Example numeric_feedback_raises :
  Sample.validate (<["teacher_feedback" := VInt 5]> Sample.auckland) = Raise TypeError.
Proof. vm_compute. reflexivity. Qed.

(** C5.  A count of zero sent as a JSON number is present and not blank,
    yet the required-fields loop reports it as missing: [not 0] holds. *)
Theorem zero_count_reported_as_missing :
  Sample.validate (<["male_participants" := VInt 0]> Sample.auckland)
  = Ok ["Male Participants is required"]
  /\ Sample.validate (<["male_participants" := VStr "0"]> Sample.auckland) = Ok [].
Proof. vm_compute. split; reflexivity. Qed.

(** C6.  An infinite float for a count (the JSON number [1e999]) does not
    convert to an integer; [int()] raises [OverflowError], which the
    [except (ValueError, TypeError)] clause lets through, so the validator
    raises instead of reporting the type message. *)
Theorem infinite_count_escapes_validation :
  int_builtin Sample.int_of_str (VFloat (FInf false)) = Raise OverflowError
  /\ Sample.validate (<["male_participants" := VFloat (FInf false)]> Sample.auckland)
     = Raise OverflowError.
Proof. vm_compute. split; reflexivity. Qed.

Example count_boundaries :
  Sample.validate (<["male_participants" := VInt 1000]> Sample.auckland) = Ok []
  /\ Sample.validate (<["male_participants" := VInt 1001]> Sample.auckland)
     = Ok ["Male participants seems too high (max 1000)"]
  /\ Sample.validate (<["male_participants" := VInt (-1)]> Sample.auckland)
     = Ok ["Male participants cannot be negative"]
  /\ Sample.validate (<["male_participants" := VStr "abc"]> Sample.auckland)
     = Ok ["Male participants must be a valid number"].
Proof. vm_compute. repeat split; reflexivity. Qed.

(* ===================================================================== *)
(** ** Properties of [create_session] *)
(* ===================================================================== *)

Lemma get_default_get (data : gmap string value) (k : string) (d : value) :
  truthy (get data k) = true -> get_default data k d = get data k.
Proof. unfold get, get_default. destruct (data !! k); [reflexivity|discriminate]. Qed.

Lemma truthy_nonempty (data : gmap string value) (k : string) :
  truthy (get data k) = true -> data <> ∅.
Proof.
  unfold get. intros T ->. rewrite lookup_empty in T. discriminate T.
Qed.

Lemma in_strs_text (v : value) (l : list string) :
  in_strs v l = true -> exists s, v = VStr s.
Proof.
  unfold in_strs. rewrite existsb_exists. intros (s & _ & E).
  destruct v; try discriminate E. eauto.
Qed.

(** When the required-fields loop adds nothing, every mandatory field is
    truthy. *)
Lemma required_errors_nil (data : gmap string value) :
  required_errors data = [] ->
  Forall (fun field => truthy (get data field) = true) required_fields.
Proof.
  unfold required_errors, required_fields. cbn [flat_map]. intros H.
  repeat match type of H with
         | when (required_missing data ?f) _ ++ _ = [] =>
             let R := fresh "R" in
             destruct (required_missing data f) eqn:R; [discriminate H|];
             cbn [when app] in H;
             unfold required_missing in R;
             apply orb_false_iff in R as [R _];
             apply negb_false_iff in R
         end.
  repeat (apply Forall_cons_2; [assumption|]). apply Forall_nil_2.
Qed.

Section Accepted.
Variable int_of_str : string -> option Z.
Variable float_of_str : string -> option pyfloat.
Variable strptime_ymd : string -> option Z.
Variable now : datetime.
Variable current_timestamp : string.

Local Abbreviation validate :=
  (validate_session_data int_of_str float_of_str strptime_ymd now).

(** A text block that returns has met a [str]. *)
Lemma stripped_text (data : gmap string value) (k : string)
    (f : string -> list string) (e : list string) :
  truthy (get data k) = true ->
  (v ← index data k; s ← strip_method v; mret (f s)) = Ok e ->
  exists s, get data k = VStr s.
Proof.
  intros T. rewrite (index_get _ _ T). cbn [mbind result_bind bind].
  destruct (get data k); cbn; intros H; try discriminate H. eauto.
Qed.

(** A count block that adds nothing has met a value that converts. *)
Lemma converted_count (v : value) (f : Z -> list string) (msg : string) :
  except_value_type (n ← int_builtin int_of_str v; mret (f n)) [msg] = Ok [] ->
  exists n, int_builtin int_of_str v = Ok n.
Proof.
  destruct (int_builtin int_of_str v) as [n|e]; [eauto|].
  destruct e; cbn; intros H; discriminate H.
Qed.

(** A coordinate block that adds nothing has met a value that converts. *)
Lemma converted_coordinate (data : gmap string value) (k : string)
    (f : pyfloat -> list string) (msg : string) :
  truthy (get data k) = true ->
  except_value_type
    (v ← index data k; x ← float_builtin float_of_str v; mret (f x)) [msg] = Ok [] ->
  exists x, float_builtin float_of_str (get data k) = Ok x.
Proof.
  intros T. rewrite (index_get _ _ T). cbn [mbind result_bind bind].
  destruct (float_builtin float_of_str (get data k)) as [x|e]; [eauto|].
  destruct e; cbn; intros H; discriminate H.
Qed.

Lemma validated_fields (data : gmap string value) :
  validate data = Ok [] -> validated int_of_str float_of_str data.
Proof.
  unfold validate_session_data. intros H.
  repeat match type of H with
         | mbind _ ?r = Ok _ =>
             let E := fresh "E" in
             destruct r eqn:E; cbn [mbind result_bind bind] in H; [|discriminate H]
         end.
  injection H as H.
  repeat match type of H with
         | _ ++ _ = [] => apply app_eq_nil in H as [? H]
         end.
  subst.
  match goal with
  | R : required_errors data = [] |- _ =>
      pose proof (required_errors_nil data R) as Req
  end.
  pose proof Req as Req'. unfold required_fields in Req'.
  apply Forall_cons in Req' as [Tschool Req'].
  apply Forall_cons in Req' as [Ttype Req'].
  apply Forall_cons in Req' as [Tlocation Req'].
  apply Forall_cons in Req' as [Tactivator Req'].
  apply Forall_cons in Req' as [Tyear Req'].
  apply Forall_cons in Req' as [Tmale Req'].
  apply Forall_cons in Req' as [Tfemale Req'].
  apply Forall_cons in Req' as [Tdate Req'].
  apply Forall_cons in Req' as [Tduration _].
  split; try assumption.
  - unfold school_name_errors in E. rewrite Tschool in E.
    exact (stripped_text data "school_name" _ _ Tschool E).
  - unfold session_type_errors in E0. rewrite Ttype in E0.
    exact (stripped_text data "session_type" _ _ Ttype E0).
  - unfold location_errors in E1. rewrite Tlocation in E1.
    exact (stripped_text data "location" _ _ Tlocation E1).
  - unfold activator_errors in E2. rewrite Tactivator in E2.
    exact (stripped_text data "activator" _ _ Tactivator E2).
  - unfold year_group_errors in E3. rewrite Tyear in E3.
    rewrite (index_get _ _ Tyear) in E3.
    cbn [mbind result_bind bind mret result_ret] in E3.
    destruct (in_strs (get data "year_group") valid_year_groups) eqn:I;
      [|discriminate E3].
    eapply in_strs_text; eauto.
  - unfold male_errors in E4. rewrite (get_default_get _ _ _ Tmale) in E4.
    exact (converted_count _ _ _ E4).
  - unfold female_errors in E5. rewrite (get_default_get _ _ _ Tfemale) in E5.
    exact (converted_count _ _ _ E5).
  - unfold session_date_errors in E8. rewrite Tdate in E8.
    rewrite (index_get _ _ Tdate) in E8. cbn [mbind result_bind bind] in E8.
    destruct (get data "session_date"); cbn in E8; try discriminate E8. eauto.
  - unfold duration_errors in E7. rewrite (get_default_get _ _ _ Tduration) in E7.
    exact (converted_count _ _ _ E7).
  - intros T. unfold latitude_errors in E9. rewrite T in E9.
    exact (converted_coordinate data "latitude" _ _ T E9).
  - intros T. unfold longitude_errors in E10. rewrite T in E10.
    exact (converted_coordinate data "longitude" _ _ T E10).
Qed.
End Accepted.

Lemma max_rowid_bound {A : Type} (table : gmap Z A) (i : Z) (x : A) :
  table !! i = Some x -> i <= max_rowid table.
Proof.
  intros H. apply elem_of_map_to_list in H. unfold max_rowid.
  induction (map_to_list table) as [|[j y] l IH]; [now apply elem_of_nil in H|].
  cbn [map fst foldr]. apply elem_of_cons in H as [E|H].
  - injection E as <- <-. lia.
  - specialize (IH H). lia.
Qed.

(** The id of a new row is the id of no row of the table. *)
Lemma next_rowid_fresh {A : Type} (seq : Z) (table : gmap Z A) :
  table !! next_rowid seq table = None.
Proof.
  destruct (table !! next_rowid seq table) as [x|] eqn:E; [|reflexivity].
  apply max_rowid_bound in E. unfold next_rowid in E. lia.
Qed.

Section CreateProperties.
Variable int_of_str : string -> option Z.
Variable float_of_str : string -> option pyfloat.
Variable strptime_ymd : string -> option Z.
Variable now : datetime.
Variable current_timestamp : string.

Local Abbreviation validate :=
  (validate_session_data int_of_str float_of_str strptime_ymd now).
Local Abbreviation create :=
  (create_session int_of_str float_of_str strptime_ymd now current_timestamp).


End CreateProperties.


Example auckland_row :
  insert_parameters Sample.int_of_str Sample.float_of_str "2025-01-16 12:00:00"
    Sample.auckland
  = Ok (mkSession "Auckland Primary School" "School Festive Day" "School Hall"
          "John Smith" "Year 5-6" 8 9 (Some "Great engagement from students")
          "2025-01-16" 60 "2025-01-16 12:00:00" None None).
Proof. vm_compute. reflexivity. Qed.

Example auckland_recorded :
  sample_create Sample.auckland empty_store
  = (SessionRecorded 1,
     mkWorld
       (mkDatabase
          {[1 := mkSession "Auckland Primary School" "School Festive Day"
                   "School Hall" "John Smith" "Year 5-6" 8 9
                   (Some "Great engagement from students") "2025-01-16" 60
                   "2025-01-16 12:00:00" None None]}
          ∅ 1 0)
       ∅).
Proof. vm_compute. reflexivity. Qed.


(** A list for [teacher_feedback] passes the validator, which only takes
    its length, and then fails at [.strip()] while the INSERT parameters are
    built: the reply is a server error and nothing is stored. *)
Example list_feedback_not_stored :
  Sample.validate (<["teacher_feedback" := VList [VStr "good"]]> Sample.auckland) = Ok []
  /\ sample_create
       (<["teacher_feedback" := VList [VStr "good"]]> Sample.auckland) empty_store
     = (ServerError AttributeError, empty_store).
Proof. vm_compute. split; reflexivity. Qed.

(* ===================================================================== *)
(** ** Properties of [delete_session] *)
(* ===================================================================== *)

Lemma remove_if_exists_lookup (fs : gmap string Z) (path q : string) :
  remove_if_exists fs path !! q = if decide (path = q) then None else fs !! q.
Proof.
  unfold remove_if_exists. destruct (fs !! path) eqn:E.
  - rewrite lookup_delete. reflexivity.
  - destruct (decide (path = q)) as [<-|]; [exact E|reflexivity].
Qed.

Lemma remove_all_keeps_absent (paths : list string) (fs : gmap string Z) (q : string) :
  fs !! q = None -> foldl remove_if_exists fs paths !! q = None.
Proof.
  revert fs. induction paths as [|p paths IH]; intros fs H; [exact H|].
  cbn [foldl]. apply IH. rewrite remove_if_exists_lookup.
  destruct (decide (p = q)); [reflexivity|exact H].
Qed.

Lemma remove_all_removes (paths : list string) (fs : gmap string Z) (q : string) :
  q ∈ paths -> foldl remove_if_exists fs paths !! q = None.
Proof.
  revert fs. induction paths as [|p paths IH]; intros fs H.
  - now apply elem_of_nil in H.
  - cbn [foldl]. apply elem_of_cons in H as [->|H].
    + apply remove_all_keeps_absent. rewrite remove_if_exists_lookup.
      destruct (decide (p = p)); [reflexivity|contradiction].
    + now apply IH.
Qed.

(** The reply never depends on the store: there is no "not found" path. *)
Lemma delete_session_reply (fk_default : bool) (sid : Z) (w : world) :
  (delete_session fk_default sid w).1 = Message "Session deleted successfully".
Proof. reflexivity. Qed.

(** The session row goes. *)
Lemma delete_session_removes_row (fk_default : bool) (sid : Z) (w : world) :
  sessions (db (delete_session fk_default sid w).2) !! sid = None.
Proof. cbn. apply lookup_delete_eq. Qed.

(** Every backing file of the session's attachments goes. *)
Lemma delete_session_removes_files (fk_default : bool) (sid : Z) (w : world) (p : Z * photo) :
  p ∈ photos_of sid (db w) ->
  files (delete_session fk_default sid w).2 !! file_path p.2 = None.
Proof.
  intros H. cbn. apply remove_all_removes. unfold photo_paths_of.
  apply list_elem_of_fmap. exists p. split; [reflexivity|exact H].
Qed.

(** With foreign keys enforced on the connection, the cascade leaves no
    attachment row of a deleted session. *)
Lemma delete_session_cascades_when_enforced (sid : Z) (w : world) :
  is_Some (sessions (db w) !! sid) ->
  photos_of sid (db (delete_session true sid w).2) = [].
Proof.
  intros [s S]. unfold photos_of, delete_session, sql_delete_session, connect, commit.
  cbn [db conn_db foreign_keys session_photos snd]. rewrite S.
  apply elem_of_nil_inv. intros [i p] H.
  apply list_elem_of_filter in H as [E H]. apply elem_of_map_to_list in H.
  apply map_lookup_filter_Some in H as [_ N]. cbn in E, N. contradiction.
Qed.

(** Without enforcement, which is what a connection opened by the handler
    has by default, [session_photos] is left as it was. *)
Lemma delete_session_keeps_photo_rows (sid : Z) (w : world) :
  session_photos (db (delete_session false sid w).2) = session_photos (db w).
Proof.
  unfold delete_session, sql_delete_session, connect, commit.
  cbn [db conn_db foreign_keys session_photos snd].
  destruct (sessions (db w) !! sid); reflexivity.
Qed.

(** C3.  Deleting session 1 on a connection as the handler opens it, with
    SQLite's default of not enforcing foreign keys, removes the session row
    and the photo's file, and leaves the photo row, which still names
    session 1. *)
Theorem delete_session_leaves_photo_rows :
  let w' := (delete_session SQLITE_DEFAULT_FOREIGN_KEYS 1 store_with_photo).2 in
  sessions (db w') !! 1 = None
  /\ files w' !! "uploads/photos/0f8fad5bd9cb469fa16570867728950e.png" = None
  /\ session_photos (db w') !! 1 = Some team_photo
  /\ photos_of 1 (db w') = [(1, team_photo)].
Proof. vm_compute. repeat split; reflexivity. Qed.

(** C9.  Deleting session 999, which the store does not hold, is answered
    with the success message, and the store is as before. *)
Theorem delete_session_unknown_id_succeeds :
  sessions (db store_with_photo) !! 999 = None
  /\ delete_session SQLITE_DEFAULT_FOREIGN_KEYS 999 store_with_photo
     = (Message "Session deleted successfully", store_with_photo).
Proof. vm_compute. split; reflexivity. Qed.

(* ===================================================================== *)
(** ** Properties of [upload_photos] *)
(* ===================================================================== *)

Section UploadProperties.
Variable uuid_hex : nat -> string.
Variable current_timestamp : string.

(** When the loop stops at the size check, the last path given to
    [file.save] is the oversize file's, and it is gone. *)
Lemma upload_loop_too_large (sid : Z) (fl : list upload) (st st' : loop_state)
    (name : string) :
  upload_loop uuid_hex current_timestamp sid fl st = (TooLarge name, st') ->
  exists earlier path,
    saved_paths st' = earlier ++ [path] /\ loop_files st' !! path = None.
Proof.
  revert st. induction fl as [|file rest IH]; intros st H; cbn [upload_loop] in H.
  - discriminate H.
  - destruct (String.eqb (upload_filename file) ""); [exact (IH _ H)|].
    destruct (negb (allowed_file (upload_filename file))); [discriminate H|].
    match type of H with
    | (if ?c then _ else _) = _ => destruct c
    end.
    + injection H as _ <-. cbn [saved_paths loop_files].
      eexists _, _. split; [reflexivity|]. apply lookup_delete_eq.
    + exact (IH _ H).
Qed.

(** C8 (amended).  When an upload to an existing session stops at the size
    check, the reply is the too-large failure, nothing is committed to the
    database, and the file that exceeded the limit, the last one written,
    has been removed from the upload directory. *)
Theorem oversize_upload_removed (fk_default : bool) (sid : Z) (fl : list upload)
    (w : world) (name : string) (st : loop_state) :
  is_Some (sessions (db w) !! sid) ->
  upload_loop uuid_hex current_timestamp sid fl
    (mkLoop (connect fk_default w) (files w) [] 0%nat []) = (TooLarge name, st) ->
  exists w' earlier path,
    upload_photos uuid_hex current_timestamp fk_default sid (Some fl) w
    = (Errors 400 ["File " +:+ name +:+ " is too large (max 5MB)"], w',
       earlier ++ [path])
    /\ db w' = db w
    /\ files w' !! path = None.
Proof.
  intros [s S] L. destruct (upload_loop_too_large _ _ _ _ _ L) as (earlier & path & P & F).
  exists (mkWorld (db w) (loop_files st)), earlier, path.
  unfold upload_photos. cbn [connect conn_db]. rewrite S, L, P.
  repeat split. exact F.
Qed.
End UploadProperties.

Lemma oversize_upload_removed_witness :
  is_Some (sessions (db store_with_session) !! 1)
  /\ exists w' earlier path,
       sample_upload 1 (Some two_uploads) store_with_session
       = (Errors 400 ["File banner.png is too large (max 5MB)"], w', earlier ++ [path])
       /\ db w' = db store_with_session
       /\ files w' !! path = None.
Proof.
  split; [vm_compute; eauto|].
  eapply (oversize_upload_removed sample_uuid_hex "2025-01-16 12:05:00"
            SQLITE_DEFAULT_FOREIGN_KEYS 1
            two_uploads store_with_session "banner.png").
  - vm_compute. eauto.
  - vm_compute. reflexivity.
Defined.

(** C8 (as stated) fails: when the second file of a request is too large,
    the first, already written, stays in the upload directory, and no row
    records it, the inserts of the request being dropped with the
    connection. *)
Lemma earlier_upload_left_behind :
  let '(reply, w', saved) := sample_upload 1 (Some two_uploads) store_with_session in
  reply = Errors 400 ["File banner.png is too large (max 5MB)"]
  /\ saved = ["uploads/photos/0f8fad5bd9cb469fa16570867728950e.png";
              "uploads/photos/7c9e6679742540de944be07fc1f90ae7.png"]
  /\ files w' !! "uploads/photos/0f8fad5bd9cb469fa16570867728950e.png" = Some 2048
  /\ files w' !! "uploads/photos/7c9e6679742540de944be07fc1f90ae7.png" = None
  /\ session_photos (db w') = ∅.
Proof. vm_compute. repeat split; reflexivity. Qed.

Example both_uploads_fit :
  sample_upload 1 (Some [mkUpload "team.png" 2048; mkUpload "" 0; mkUpload "field.JPG" 4096])
    store_with_session
  = (PhotosUploaded
       [mkUploaded "0f8fad5bd9cb469fa16570867728950e.png" "team.png" 2048;
        mkUploaded "7c9e6679742540de944be07fc1f90ae7.jpg" "field.JPG" 4096],
     mkWorld
       (mkDatabase {[1 := festive_day "2025-01-16"]}
          {[1 := mkPhoto 1 "0f8fad5bd9cb469fa16570867728950e.png" "team.png"
                   "uploads/photos/0f8fad5bd9cb469fa16570867728950e.png" 2048
                   "2025-01-16 12:05:00";
            2 := mkPhoto 1 "7c9e6679742540de944be07fc1f90ae7.jpg" "field.JPG"
                   "uploads/photos/7c9e6679742540de944be07fc1f90ae7.jpg" 4096
                   "2025-01-16 12:05:00"]}
          1 2)
       {["uploads/photos/0f8fad5bd9cb469fa16570867728950e.png" := 2048;
         "uploads/photos/7c9e6679742540de944be07fc1f90ae7.jpg" := 4096]},
     ["uploads/photos/0f8fad5bd9cb469fa16570867728950e.png";
      "uploads/photos/7c9e6679742540de944be07fc1f90ae7.jpg"]).
Proof. vm_compute. reflexivity. Qed.

(* ===================================================================== *)
(** ** Properties of [get_sessions] *)
(* ===================================================================== *)

Lemma left_join_cons (s : Z * session) (ss : list (Z * session)) (ps : list (Z * photo)) :
  left_join (s :: ss) ps = join_rows ps s ++ left_join ss ps.
Proof. reflexivity. Qed.

Lemma filter_all {A : Type} (P : A -> Prop) `{forall x, Decision (P x)} (l : list A) :
  Forall P l -> filter P l = l.
Proof.
  induction 1 as [|x l Hx _ IH]; [reflexivity|].
  rewrite filter_cons_True by exact Hx. now rewrite IH.
Qed.

Lemma filter_none {A : Type} (P : A -> Prop) `{forall x, Decision (P x)} (l : list A) :
  Forall (fun x => ~ P x) l -> filter P l = [].
Proof.
  induction 1 as [|x l Hx _ IH]; [reflexivity|].
  now rewrite filter_cons_False by exact Hx.
Qed.

Lemma join_rows_session (ps : list (Z * photo)) (s : Z * session) :
  Forall (fun r => r.1 = s) (join_rows ps s).
Proof.
  unfold join_rows. destruct (filter _ ps) as [|p m].
  - repeat constructor.
  - apply Forall_forall. intros r Hr.
    apply list_elem_of_fmap in Hr as (q & -> & _). reflexivity.
Qed.

Lemma left_join_session (ss : list (Z * session)) (ps : list (Z * photo)) :
  Forall (fun r => r.1 ∈ ss) (left_join ss ps).
Proof.
  induction ss as [|s ss IH]; [constructor|].
  rewrite left_join_cons. apply Forall_app. split.
  - eapply Forall_impl; [apply join_rows_session|].
    intros r ->. apply elem_of_cons. now left.
  - eapply Forall_impl; [exact IH|].
    intros r Hr. apply elem_of_cons. now right.
Qed.

(** With ids that identify the sessions, the group of an id is the joined
    rows of its session. *)
Lemma group_of_session (ss : list (Z * session)) (ps : list (Z * photo))
    (i : Z) (s : session) :
  NoDup ss.*1 -> (i, s) ∈ ss ->
  filter (fun r => r.1.1 = i) (left_join ss ps) = join_rows ps (i, s).
Proof.
  induction ss as [|x ss IH]; intros ND Hin.
  - now apply elem_of_nil in Hin.
  - cbn [fmap list_fmap] in ND. apply NoDup_cons in ND as [Hx ND].
    rewrite left_join_cons, filter_app.
    apply elem_of_cons in Hin as [<-|Hin].
    + rewrite filter_all, filter_none; [apply app_nil_r| |].
      * eapply Forall_impl; [apply left_join_session|].
        intros r Hr E. apply Hx. cbn. rewrite <- E.
        apply list_elem_of_fmap. exists r.1. split; [reflexivity|exact Hr].
      * eapply Forall_impl; [apply join_rows_session|]. now intros r ->.
    + rewrite filter_none; [now apply IH|].
      eapply Forall_impl; [apply join_rows_session|].
      intros r -> E. apply Hx. rewrite E.
      apply list_elem_of_fmap. exists (i, s). split; [reflexivity|exact Hin].
Qed.

(** [COUNT(sp.id)] over the joined rows of a session is the number of its
    photos: 0 for the single row with NULL. *)
Lemma count_join_rows (ps : list (Z * photo)) (s : Z * session) :
  count_sp_id (join_rows ps s)
  = Z.of_nat (length (filter (fun p => session_id p.2 = s.1) ps)).
Proof.
  unfold join_rows, count_sp_id. destruct (filter _ ps) as [|p m]; [reflexivity|].
  rewrite filter_all.
  - now rewrite length_map.
  - apply Forall_forall. intros r Hr.
    apply list_elem_of_fmap in Hr as (q & -> & _). cbn. eauto.
Qed.

(** C10.  In every state of the store, each record that [get_sessions]
    returns is a stored session under its id, its [total_participants] is
    that session's male plus female count, and its [photo_count] is the
    number of attachment rows whose [session_id] is its id. *)
Theorem listing_derived_fields (w : world) :
  Forall
    (fun r =>
       sessions (db w) !! listed_id r = Some (listed_row r)
       /\ total_participants r
          = male_participants (listed_row r) + female_participants (listed_row r)
       /\ photo_count r = Z.of_nat (length (photos_of (listed_id r) (db w))))
    (get_sessions w).
Proof.
  apply Forall_forall. intros r Hr. unfold get_sessions in Hr.
  apply list_elem_of_fmap in Hr as (row & -> & Hrow).
  rewrite merge_sort_Permutation in Hrow.
  unfold group_by_id in Hrow.
  apply list_elem_of_omap in Hrow as (i & _ & G).
  destruct (filter (fun r => r.1.1 = i) _) as [|r0 g] eqn:Group; [discriminate G|].
  injection G as <-. cbn [listed_id listed_row total_participants photo_count fst snd].
  assert (Hr0 : r0 ∈ filter (fun r => r.1.1 = i)
                  (left_join (map_to_list (sessions (db w)))
                             (map_to_list (session_photos (db w))))).
  { rewrite Group. apply elem_of_cons. now left. }
  apply list_elem_of_filter in Hr0 as [Hi Hjoined].
  pose proof (left_join_session (map_to_list (sessions (db w)))
                (map_to_list (session_photos (db w)))) as S.
  rewrite Forall_forall in S. specialize (S r0 Hjoined).
  destruct r0 as [[j s] o]. cbn [fst snd] in *. subst j.
  rewrite (group_of_session _ _ i s (NoDup_fst_map_to_list _) S) in Group.
  split; [now apply elem_of_map_to_list|]. split; [reflexivity|].
  rewrite <- Group. apply count_join_rows.
Qed.

Example listing_three_sessions :
  map (fun r => (listed_id r, photo_count r, total_participants r))
      (get_sessions store_three_sessions)
  = [(2, 2, 17); (1, 1, 17); (3, 0, 17)].
Proof. vm_compute. reflexivity. Qed.

(* ===================================================================== *)
(** ** Further properties of [delete_session] and [delete_photo] *)
(* ===================================================================== *)

Lemma remove_all_absent_id (paths : list string) (fs : gmap string Z) :
  Forall (fun q => fs !! q = None) paths -> foldl remove_if_exists fs paths = fs.
Proof.
  revert fs. induction paths as [|p paths IH]; intros fs H; [reflexivity|].
  apply Forall_cons in H as [Hp H]. cbn [foldl].
  unfold remove_if_exists at 2. rewrite Hp. now apply IH.
Qed.

Lemma remove_all_other (paths : list string) (fs : gmap string Z) (q : string) :
  q ∉ paths -> foldl remove_if_exists fs paths !! q = fs !! q.
Proof.
  revert fs. induction paths as [|p paths IH]; intros fs H; [reflexivity|].
  apply not_elem_of_cons in H as [Hne H]. cbn [foldl]. rewrite (IH _ H).
  rewrite remove_if_exists_lookup. destruct (decide (p = q)); [congruence|reflexivity].
Qed.

(** The paths selected after a delete are among those selected before. *)
Lemma photo_paths_after_delete (fk_default : bool) (sid : Z) (w : world) (q : string) :
  q ∈ photo_paths_of sid (db (delete_session fk_default sid w).2) ->
  q ∈ photo_paths_of sid (db w).
Proof.
  unfold photo_paths_of. intros H.
  apply list_elem_of_fmap in H as (p & -> & H).
  apply list_elem_of_filter in H as [E H]. apply elem_of_map_to_list' in H.
  apply list_elem_of_fmap. exists p. split; [reflexivity|].
  apply list_elem_of_filter. split; [exact E|]. apply elem_of_map_to_list'.
  revert H. unfold delete_session, sql_delete_session, connect, commit.
  cbn [db conn_db foreign_keys session_photos snd].
  destruct (sessions (db w) !! sid); [destruct fk_default|]; auto.
  intros H. now apply map_lookup_filter_Some in H as [H _].
Qed.

(** Deleting a session twice is deleting it once: the second call answers
    the same and changes nothing more. *)
Theorem delete_session_idempotent (fk_default : bool) (sid : Z) (w : world) :
  delete_session fk_default sid (delete_session fk_default sid w).2
  = delete_session fk_default sid w.
Proof.
  pose proof (photo_paths_after_delete fk_default sid w) as Sub.
  remember (delete_session fk_default sid w) as first eqn:E.
  assert (Hrow : sessions (db first.2) !! sid = None)
    by (subst first; apply delete_session_removes_row).
  assert (Hfiles : Forall (fun q => files first.2 !! q = None)
                     (photo_paths_of sid (db first.2))).
  { apply Forall_forall. intros q Hq. specialize (Sub q Hq).
    subst first. cbn. now apply remove_all_removes. }
  assert (Hreply : first.1 = Message "Session deleted successfully")
    by (subst first; reflexivity).
  clear E Sub. destruct first as [reply [d fs]]. cbn [fst snd db files] in *.
  subst reply. unfold delete_session, sql_delete_session, connect, commit.
  cbn [db conn_db foreign_keys files]. rewrite Hrow.
  rewrite (remove_all_absent_id _ _ Hfiles). rewrite (delete_id _ _ Hrow).
  now destruct d.
Qed.

(** A delete touches the target only: every other session row keeps its
    value, every attachment row of another session stays, and so does
    every file that is not the backing file of one of the target's
    attachments. *)
Theorem delete_session_leaves_others (fk_default : bool) (sid : Z) (w : world) :
  let w' := (delete_session fk_default sid w).2 in
  (forall j, j <> sid -> sessions (db w') !! j = sessions (db w) !! j)
  /\ (forall i p, session_photos (db w) !! i = Some p -> session_id p <> sid ->
        session_photos (db w') !! i = Some p)
  /\ (forall q, q ∉ photo_paths_of sid (db w) -> files w' !! q = files w !! q).
Proof.
  cbn zeta. unfold delete_session, sql_delete_session, connect, commit.
  cbn [db conn_db foreign_keys session_photos sessions files snd].
  split; [|split].
  - intros j Hj. now apply lookup_delete_ne.
  - intros i p Hp Hne.
    destruct (sessions (db w) !! sid); [destruct fk_default|]; try exact Hp.
    apply map_lookup_filter_Some. split; [exact Hp|exact Hne].
  - intros q Hq. now apply remove_all_other.
Qed.

Lemma delete_session_leaves_others_witness :
  let w' := (delete_session SQLITE_DEFAULT_FOREIGN_KEYS 1 store_three_sessions).2 in
  sessions (db w') !! 2 = sessions (db store_three_sessions) !! 2
  /\ session_photos (db w') !! 3 = session_photos (db store_three_sessions) !! 3.
Proof.
  cbn zeta.
  destruct (delete_session_leaves_others SQLITE_DEFAULT_FOREIGN_KEYS 1
              store_three_sessions) as (S & P & _).
  split; [apply S; discriminate|].
  eapply P; [vm_compute; reflexivity|vm_compute; discriminate].
Defined.

(** After a delete no backing file of the session's attachments is left in
    the upload directory. *)
Theorem delete_session_clears_files (fk_default : bool) (sid : Z) (w : world)
    (i : Z) (p : photo) :
  session_photos (db w) !! i = Some p -> session_id p = sid ->
  files (delete_session fk_default sid w).2 !! file_path p = None.
Proof.
  intros Hp E. apply (delete_session_removes_files fk_default sid w (i, p)).
  unfold photos_of. apply list_elem_of_filter. split; [exact E|].
  now apply elem_of_map_to_list.
Qed.

Lemma delete_session_clears_files_witness :
  files (delete_session SQLITE_DEFAULT_FOREIGN_KEYS 1 store_with_photo).2
    !! "uploads/photos/0f8fad5bd9cb469fa16570867728950e.png" = None.
Proof.
  apply (delete_session_clears_files SQLITE_DEFAULT_FOREIGN_KEYS 1 store_with_photo
           1 team_photo); reflexivity.
Defined.

(** [DELETE ... WHERE id = ? AND session_id = ?] removes the selected row
    and no other. *)
Lemma sql_delete_photo_selected (pid sid : Z) (c : connection) (p : photo) :
  select_photo pid sid (conn_db c) = Some p ->
  session_photos (conn_db (sql_delete_photo pid sid c))
  = delete pid (session_photos (conn_db c)).
Proof.
  unfold select_photo, sql_delete_photo. cbn [conn_db session_photos].
  destruct (session_photos (conn_db c) !! pid) as [p'|] eqn:L; [|discriminate].
  destruct (decide (session_id p' = sid)) as [E|]; [|discriminate]. intros _.
  apply map_eq. intros j. destruct (decide (j = pid)) as [->|Hj].
  - rewrite lookup_delete_eq. apply map_lookup_filter_None. right.
    intros x Hx. rewrite L in Hx. injection Hx as <-. cbn. tauto.
  - rewrite lookup_delete_ne by congruence.
    destruct (session_photos (conn_db c) !! j) as [x|] eqn:Lj.
    + apply map_lookup_filter_Some. split; [exact Lj|]. cbn. tauto.
    + apply map_lookup_filter_None. now left.
Qed.

(** A photo is deleted only through the session that owns it: when no
    attachment row has both the photo id and the session id, the reply is
    "Photo not found" and nothing changes. *)
Theorem delete_photo_needs_owner (fk_default : bool) (sid pid : Z) (w : world) :
  (forall p, session_photos (db w) !! pid = Some p -> session_id p <> sid) ->
  delete_photo fk_default sid pid w = (Errors 404 ["Photo not found"], w).
Proof.
  intros H. unfold delete_photo, select_photo, connect. cbn [conn_db].
  destruct (session_photos (db w) !! pid) as [p|] eqn:L; [|reflexivity].
  destruct (decide (session_id p = sid)) as [E|]; [|reflexivity].
  now destruct (H p eq_refl).
Qed.

Lemma delete_photo_needs_owner_witness :
  delete_photo SQLITE_DEFAULT_FOREIGN_KEYS 1 2 store_three_sessions
  = (Errors 404 ["Photo not found"], store_three_sessions).
Proof.
  apply delete_photo_needs_owner. intros p Hp.
  vm_compute in Hp. injection Hp as <-. discriminate.
Defined.

(** Deleting a photo through its owner removes exactly that row and its
    backing file: the sessions, the other attachment rows and the other
    files stay as they were. *)
Theorem delete_photo_removes_one (fk_default : bool) (sid pid : Z) (w : world)
    (p : photo) :
  session_photos (db w) !! pid = Some p -> session_id p = sid ->
  let '(reply, w') := delete_photo fk_default sid pid w in
  reply = Message "Photo deleted successfully"
  /\ sessions (db w') = sessions (db w)
  /\ session_photos (db w') = delete pid (session_photos (db w))
  /\ files w' !! file_path p = None
  /\ (forall q, q <> file_path p -> files w' !! q = files w !! q).
Proof.
  intros L E.
  assert (Sel : select_photo pid sid (db w) = Some p).
  { unfold select_photo. rewrite L. now destruct (decide (session_id p = sid)). }
  unfold delete_photo, connect, commit. cbn [conn_db]. rewrite Sel.
  split; [reflexivity|]. split; [reflexivity|]. split.
  - exact (sql_delete_photo_selected pid sid (mkConnection (db w) fk_default) p Sel).
  - cbn [files]. split.
    + rewrite remove_if_exists_lookup.
      destruct (decide (file_path p = file_path p)); [reflexivity|contradiction].
    + intros q Hq. rewrite remove_if_exists_lookup.
      destruct (decide (file_path p = q)); [congruence|reflexivity].
Qed.

Lemma delete_photo_removes_one_witness :
  let '(reply, w') := delete_photo SQLITE_DEFAULT_FOREIGN_KEYS 1 1 store_with_photo in
  reply = Message "Photo deleted successfully"
  /\ sessions (db w') = sessions (db store_with_photo)
  /\ session_photos (db w') = delete 1 (session_photos (db store_with_photo))
  /\ files w' !! file_path team_photo = None
  /\ (forall q, q <> file_path team_photo -> files w' !! q = files store_with_photo !! q).
Proof.
  apply (delete_photo_removes_one SQLITE_DEFAULT_FOREIGN_KEYS 1 1 store_with_photo
           team_photo); reflexivity.
Defined.

(* ===================================================================== *)
(** ** Further properties of [create_session], [update_session], [init_db] *)
(* ===================================================================== *)

Section WriteProperties.
Variable int_of_str : string -> option Z.
Variable float_of_str : string -> option pyfloat.
Variable strptime_ymd : string -> option Z.
Variable now : datetime.
Variable current_timestamp : string.

Local Abbreviation validate :=
  (validate_session_data int_of_str float_of_str strptime_ymd now).
Local Abbreviation create :=
  (create_session int_of_str float_of_str strptime_ymd now current_timestamp).
Local Abbreviation update :=
  (update_session int_of_str float_of_str strptime_ymd now).

(** Whatever the request, [create_session] keeps every stored session as it
    is, adds at most one row, and leaves the attachment rows and the upload
    directory alone. *)
Theorem create_session_keeps_store (fk_default : bool)
    (data : gmap string value) (w : world) :
  let w' := (create fk_default data w).2 in
  (forall i s, sessions (db w) !! i = Some s -> sessions (db w') !! i = Some s)
  /\ (size (sessions (db w')) <= S (size (sessions (db w))))%nat
  /\ session_photos (db w') = session_photos (db w)
  /\ files w' = files w.
Proof.
  cbn zeta. unfold create_session.
  destruct (decide (data = ∅)); [cbn; auto|].
  destruct (validate data) as [[|m errs]|e]; try (cbn; auto; fail).
  destruct (insert_parameters _ _ _ data) as [row|e]; [|cbn; auto].
  unfold insert_session, connect, commit.
  cbn [fst snd conn_db db sessions session_photos files].
  pose proof (next_rowid_fresh (sessions_seq (db w)) (sessions (db w))) as Fresh.
  split; [|split; [|split; reflexivity]].
  - intros i s H. rewrite lookup_insert_ne; [exact H|]. intros <-.
    rewrite Fresh in H. discriminate H.
  - rewrite map_size_insert_None by exact Fresh. lia.
Qed.

(** [update_session] never adds or removes a session, changes no session
    but the one addressed, and leaves the attachment rows, the id counters
    and the upload directory alone. *)
Theorem update_session_keeps_store (fk_default : bool) (sid : Z)
    (data : gmap string value) (w : world) :
  let w' := (update fk_default sid data w).2 in
  dom (sessions (db w')) = dom (sessions (db w))
  /\ (forall j, j <> sid -> sessions (db w') !! j = sessions (db w) !! j)
  /\ session_photos (db w') = session_photos (db w)
  /\ sessions_seq (db w') = sessions_seq (db w)
  /\ files w' = files w.
Proof.
  cbn zeta. unfold update_session.
  destruct (decide (data = ∅)); [cbn; auto|].
  destruct (validate data) as [[|m errs]|e]; try (cbn; auto; fail).
  unfold connect. cbn [conn_db].
  destruct (sessions (db w) !! sid); [|cbn; auto].
  destruct (insert_parameters _ _ _ data) as [p|e]; [|cbn; auto].
  unfold sql_update_session, commit.
  cbn [fst snd conn_db db sessions session_photos sessions_seq files].
  split; [apply dom_alter_L|]. split; [|auto].
  intros j Hj. apply lookup_alter_ne. congruence.
Qed.

(** An update on an id that the store does not hold changes nothing; with a
    valid record the reply is "Session not found". *)
Theorem update_session_unknown_id (fk_default : bool) (sid : Z)
    (data : gmap string value) (w : world) :
  sessions (db w) !! sid = None ->
  (update fk_default sid data w).2 = w
  /\ (validate data = Ok [] ->
      update fk_default sid data w = (Errors 404 ["Session not found"], w)).
Proof.
  intros H. unfold update_session.
  destruct (decide (data = ∅)) as [->|Hne].
  - split; [reflexivity|]. intros V.
    pose proof (validated_fields _ _ _ _ _ V) as [Req].
    unfold required_fields in Req. apply Forall_cons in Req as [T _].
    now apply truthy_nonempty in T.
  - destruct (validate data) as [[|m errs]|e]; try (split; [reflexivity|discriminate]).
    unfold connect. cbn [conn_db]. rewrite H. split; reflexivity.
Qed.

End WriteProperties.

Lemma update_session_unknown_id_witness :
  sessions (db store_with_photo) !! 7 = None
  /\ (update_session Sample.int_of_str Sample.float_of_str Sample.strptime_ymd
        Sample.noon_2025_01_16 SQLITE_DEFAULT_FOREIGN_KEYS 7 Sample.auckland
        store_with_photo).2 = store_with_photo
  /\ (Sample.validate Sample.auckland = Ok [] ->
      update_session Sample.int_of_str Sample.float_of_str Sample.strptime_ymd
        Sample.noon_2025_01_16 SQLITE_DEFAULT_FOREIGN_KEYS 7 Sample.auckland
        store_with_photo
      = (Errors 404 ["Session not found"], store_with_photo)).
Proof.
  split; [reflexivity|].
  apply (update_session_unknown_id Sample.int_of_str Sample.float_of_str
           Sample.strptime_ymd Sample.noon_2025_01_16 SQLITE_DEFAULT_FOREIGN_KEYS
           7 Sample.auckland store_with_photo).
  reflexivity.
Defined.


(** *** Row ids *)

Lemma max_rowid_nonneg {A : Type} (table : gmap Z A) : 0 <= max_rowid table.
Proof.
  unfold max_rowid. induction (map_to_list table) as [|[j y] l IH]; cbn; lia.
Qed.

Lemma max_rowid_le {A : Type} (table : gmap Z A) (b : Z) :
  0 <= b -> (forall i x, table !! i = Some x -> i <= b) -> max_rowid table <= b.
Proof.
  intros Hb H. unfold max_rowid.
  assert (F : Forall (fun ix => ix.1 <= b) (map_to_list table)).
  { apply Forall_forall. intros [i x] Hix. apply elem_of_map_to_list in Hix.
    exact (H i x Hix). }
  induction F as [|[j y] l Hj _ IH]; cbn in *; lia.
Qed.

(** After an insert under the next id [n], the next id is [n + 1]. *)
Lemma next_rowid_step {A : Type} (seq : Z) (table : gmap Z A) (x : A) :
  let n := next_rowid seq table in
  next_rowid n (<[n := x]> table) = n + 1.
Proof.
  cbn zeta. set (n := next_rowid seq table).
  assert (Hn : max_rowid table < n /\ 0 < n).
  { pose proof (max_rowid_nonneg table). unfold n, next_rowid. lia. }
  assert (Hle : max_rowid (<[n := x]> table) <= n).
  { apply max_rowid_le; [lia|]. intros i y Hi.
    destruct (decide (i = n)) as [->|Hne]; [lia|].
    rewrite lookup_insert_ne in Hi by congruence.
    apply max_rowid_bound in Hi. lia. }
  unfold next_rowid at 1. lia.
Qed.

(** [executemany] gives the rows consecutive ids, starting at the next
    one, and changes no row that was there. *)
Lemma insert_sessions_lookup (rows : list session) (c : connection) (j : Z) :
  let n := next_rowid (sessions_seq (conn_db c)) (sessions (conn_db c)) in
  sessions (conn_db (insert_sessions rows c)) !! j
  = if (n <=? j) && (j <? n + Z.of_nat (length rows))
    then rows !! Z.to_nat (j - n)
    else sessions (conn_db c) !! j.
Proof.
  cbn zeta. revert c. induction rows as [|row rows IH]; intros c.
  - unfold insert_sessions. cbn [foldl length Z.of_nat].
    match goal with |- _ = if ?b then _ else _ => destruct b eqn:B end;
      [|reflexivity].
    apply andb_true_iff in B as [B1 B2].
    apply Z.leb_le in B1. apply Z.ltb_lt in B2. lia.
  - unfold insert_sessions in *. cbn [foldl]. rewrite IH. clear IH.
    unfold insert_session. cbn [snd conn_db sessions sessions_seq].
    rewrite next_rowid_step.
    set (n := next_rowid (sessions_seq (conn_db c)) (sessions (conn_db c))).
    cbn [length]. rewrite Nat2Z.inj_succ.
    destruct (Z.leb_spec (n + 1) j), (Z.ltb_spec j (n + 1 + Z.of_nat (length rows)));
      destruct (Z.leb_spec n j), (Z.ltb_spec j (n + Z.succ (Z.of_nat (length rows))));
      cbn [andb]; try lia.
    + replace (Z.to_nat (j - n)) with (S (Z.to_nat (j - (n + 1)))) by lia.
      reflexivity.
    + rewrite lookup_insert_ne by lia. reflexivity.
    + assert (j = n) as -> by lia. rewrite lookup_insert_eq.
      now replace (n - n) with 0 by lia.
    + rewrite lookup_insert_ne by lia. reflexivity.
Qed.

(** [executemany] adds one row for each element. *)
Lemma insert_sessions_size (rows : list session) (c : connection) :
  size (sessions (conn_db (insert_sessions rows c)))
  = (size (sessions (conn_db c)) + length rows)%nat.
Proof.
  revert c. induction rows as [|row rows IH]; intros c.
  - cbn. lia.
  - unfold insert_sessions in *. cbn [foldl]. rewrite IH.
    unfold insert_session. cbn [snd conn_db sessions length].
    rewrite map_size_insert_None by apply next_rowid_fresh. lia.
Qed.

Lemma insert_sessions_keeps_rest (rows : list session) (c : connection) :
  session_photos (conn_db (insert_sessions rows c)) = session_photos (conn_db c)
  /\ session_photos_seq (conn_db (insert_sessions rows c))
     = session_photos_seq (conn_db c)
  /\ foreign_keys (insert_sessions rows c) = foreign_keys c.
Proof.
  revert c. induction rows as [|row rows IH]; intros c; [auto|].
  unfold insert_sessions in *. cbn [foldl].
  destruct (IH (insert_session row c).2) as (-> & -> & ->). auto.
Qed.

Lemma init_db_on_empty (fk_default : bool) (w : world) :
  sessions (db w) = ∅ ->
  let n := next_rowid (sessions_seq (db w)) (sessions (db w)) in
  let w' := init_db fk_default w in
  (forall j, sessions (db w') !! j
             = if (n <=? j) && (j <? n + 5) then sample_sessions !! Z.to_nat (j - n)
               else None)
  /\ size (sessions (db w')) = 5%nat
  /\ session_photos (db w') = session_photos (db w)
  /\ files w' = files w.
Proof.
  intros E. cbn zeta.
  assert (I : init_db fk_default w
              = commit (insert_sessions sample_sessions (connect fk_default w)) w).
  { unfold init_db.
    destruct (Z.eqb_spec (Z.of_nat (size (sessions (conn_db (connect fk_default w))))) 0)
      as [_|N]; [reflexivity|].
    unfold connect in N. cbn [conn_db] in N.
    rewrite E, map_size_empty in N. now destruct N. }
  rewrite I. unfold commit, connect. cbn [db files].
  assert (L : forall j,
             sessions (conn_db (insert_sessions sample_sessions
                                  (mkConnection (db w) fk_default))) !! j
             = if (next_rowid (sessions_seq (db w)) (sessions (db w)) <=? j)
                  && (j <? next_rowid (sessions_seq (db w)) (sessions (db w)) + 5)
               then sample_sessions !! Z.to_nat (j - next_rowid (sessions_seq (db w))
                                                        (sessions (db w)))
               else None).
  { intros j. rewrite insert_sessions_lookup. cbn [conn_db].
    change (Z.of_nat (length sample_sessions)) with 5.
    destruct (_ && _); [reflexivity|]. rewrite E. apply lookup_empty. }
  split; [exact L|]. split; [|split].
  - rewrite insert_sessions_size. cbn [conn_db]. rewrite E, map_size_empty.
    reflexivity.
  - apply (insert_sessions_keeps_rest sample_sessions (mkConnection (db w) fk_default)).
  - reflexivity.
Qed.

(** [init_db] on a store without sessions puts the five sample rows under
    five consecutive fresh ids and nothing else; the attachment rows and
    the upload directory stay as they were. *)
Theorem init_db_seeds_empty_store (fk_default : bool) (w : world) :
  sessions (db w) = ∅ ->
  let n := next_rowid (sessions_seq (db w)) (sessions (db w)) in
  let w' := init_db fk_default w in
  (forall j, sessions (db w') !! j
             = if (n <=? j) && (j <? n + 5) then sample_sessions !! Z.to_nat (j - n)
               else None)
  /\ size (sessions (db w')) = 5%nat
  /\ session_photos (db w') = session_photos (db w)
  /\ files w' = files w.
Proof. exact (init_db_on_empty fk_default w). Qed.

Lemma init_db_seeds_empty_store_witness :
  sessions (db empty_store) = ∅
  /\ size (sessions (db (init_db SQLITE_DEFAULT_FOREIGN_KEYS empty_store))) = 5%nat
  /\ sessions (db (init_db SQLITE_DEFAULT_FOREIGN_KEYS empty_store)) !! 5
     = sample_sessions !! 4%nat.
Proof.
  split; [reflexivity|].
  destruct (init_db_seeds_empty_store SQLITE_DEFAULT_FOREIGN_KEYS empty_store eq_refl)
    as (L & S & _).
  split; [exact S|]. exact (L 5).
Defined.

(** [init_db] seeds once: on a store that holds a session it changes
    nothing, so running it again has no further effect. *)
Theorem init_db_idempotent (fk_default : bool) (w : world) :
  (sessions (db w) <> ∅ -> init_db fk_default w = w)
  /\ init_db fk_default (init_db fk_default w) = init_db fk_default w.
Proof.
  assert (Keep : forall v, sessions (db v) <> ∅ -> init_db fk_default v = v).
  { intros v H. unfold init_db, connect, commit. cbn [conn_db].
    apply map_size_non_empty_iff in H.
    destruct (Z.eqb_spec (Z.of_nat (size (sessions (db v)))) 0) as [Z0|_]; [lia|].
    now destruct v. }
  split; [apply Keep|]. apply Keep.
  destruct (decide (sessions (db w) = ∅)) as [E|Hne].
  - destruct (init_db_on_empty fk_default w E) as (_ & S & _).
    apply map_size_non_empty_iff. rewrite S. discriminate.
  - now rewrite (Keep w Hne).
Qed.

(* ===================================================================== *)
(** ** Further properties of [get_sessions] and [get_session_photos] *)
(* ===================================================================== *)

Lemma remove_dups_block (k : nat) (i : Z) (rest : list Z) :
  i ∉ rest -> remove_dups (replicate (S k) i ++ rest) = i :: remove_dups rest.
Proof.
  intros H. induction k as [|k IH].
  - cbn. destruct (decide_rel elem_of i rest); [contradiction|reflexivity].
  - rewrite replicate_S. cbn [app remove_dups].
    destruct (decide_rel elem_of i (replicate (S k) i ++ rest)) as [_|N]; [exact IH|].
    exfalso. apply N. apply elem_of_app. left. apply elem_of_replicate. auto.
Qed.

Lemma joined_ids (s : Z * session) (l : list (Z * photo)) :
  map (fun r : (Z * session) * option (Z * photo) => r.1.1)
      (map (fun q => (s, Some q)) l)
  = replicate (length l) s.1.
Proof. induction l as [|q l IH]; [reflexivity|]. cbn. now rewrite IH. Qed.

Lemma join_rows_ids (ps : list (Z * photo)) (s : Z * session) :
  exists k, map (fun r => r.1.1) (join_rows ps s) = replicate (S k) s.1.
Proof.
  unfold join_rows. destruct (filter _ ps) as [|p m]; [now exists 0%nat|].
  exists (length m). now rewrite joined_ids.
Qed.

Lemma left_join_ids (ss : list (Z * session)) (ps : list (Z * photo)) :
  NoDup ss.*1 ->
  remove_dups (map (fun r => r.1.1) (left_join ss ps)) = ss.*1.
Proof.
  induction ss as [|s ss IH]; intros ND; [reflexivity|].
  cbn [fmap list_fmap] in ND. apply NoDup_cons in ND as [Hs ND].
  rewrite left_join_cons, map_app.
  destruct (join_rows_ids ps s) as [k ->].
  rewrite remove_dups_block.
  - cbn [fmap list_fmap]. now rewrite IH.
  - intros Hin. apply Hs. apply list_elem_of_fmap in Hin as (r & -> & Hr).
    pose proof (left_join_session ss ps) as F. rewrite Forall_forall in F.
    apply list_elem_of_fmap. exists r.1. split; [reflexivity|]. now apply F.
Qed.

Lemma join_rows_nonempty (ps : list (Z * photo)) (s : Z * session) :
  exists o rest, join_rows ps s = (s, o) :: rest.
Proof.
  unfold join_rows. destruct (filter _ ps) as [|p m]; cbn; eauto.
Qed.

(** What the query of [get_sessions] yields before the sort: one row for
    each session, with the count of its attachment rows. *)
Lemma group_by_id_left_join (ss : list (Z * session)) (ps : list (Z * photo)) :
  NoDup ss.*1 ->
  group_by_id (left_join ss ps)
  = map (fun s => (s.1, s.2,
                   Z.of_nat (length (filter (fun p => session_id p.2 = s.1) ps))))
        ss.
Proof.
  intros ND. unfold group_by_id. rewrite (left_join_ids ss ps ND).
  assert (G : forall l, (forall x, x ∈ l -> x ∈ ss) ->
            omap (fun i =>
                    match filter (fun r => r.1.1 = i) (left_join ss ps) with
                    | r :: _ =>
                        Some (r.1.1, r.1.2,
                              count_sp_id (filter (fun r => r.1.1 = i) (left_join ss ps)))
                    | [] => None
                    end) l.*1
            = map (fun s => (s.1, s.2,
                     Z.of_nat (length (filter (fun p => session_id p.2 = s.1) ps))))
                  l).
  { induction l as [|[i s] l IH]; intros Sub; [reflexivity|].
    cbn [fmap list_fmap omap list_omap map fst snd].
    rewrite (group_of_session ss ps i s ND) by (apply Sub; now left).
    rewrite count_join_rows.
    destruct (join_rows_nonempty ps (i, s)) as (o & rest & ->). cbn [fst snd].
    f_equal. apply IH. intros x Hx. apply Sub. now right. }
  now apply G.
Qed.

Lemma get_sessions_permutation (w : world) :
  get_sessions w
  ≡ₚ map (fun s => mkListed s.1 s.2 (photos_owned w s.1)
                     (male_participants s.2 + female_participants s.2))
         (map_to_list (sessions (db w))).
Proof.
  unfold get_sessions. rewrite merge_sort_Permutation.
  rewrite group_by_id_left_join by apply NoDup_fst_map_to_list.
  rewrite map_map. reflexivity.
Qed.

(** [get_sessions] returns every stored session exactly once: the listing
    is, up to its order, the stored rows with their derived fields. *)
Theorem listing_covers_store (w : world) :
  map (fun r => (listed_id r, listed_row r)) (get_sessions w)
  ≡ₚ map_to_list (sessions (db w))
  /\ length (get_sessions w) = size (sessions (db w)).
Proof.
  pose proof (get_sessions_permutation w) as P. split.
  - rewrite P, map_map. cbn [listed_id listed_row].
    erewrite map_ext; [now rewrite map_id|]. now intros [i s].
  - rewrite P, length_map. apply length_map_to_list.
Qed.

(** *** The order of the listing *)

Lemma text_le_total (a b : string) : text_le a b = false -> text_le b a = true.
Proof.
  revert b. induction a as [|x a IH]; intros [|y b]; cbn; try congruence.
  destruct (N.ltb_spec (N_of_ascii x) (N_of_ascii y)); [discriminate|].
  destruct (N.ltb_spec (N_of_ascii y) (N_of_ascii x)); [reflexivity|].
  apply IH.
Qed.

Lemma text_le_antisym (a b : string) :
  text_le a b = true -> text_le b a = true -> a = b.
Proof.
  revert b. induction a as [|x a IH]; intros [|y b]; cbn; try congruence.
  destruct (N.ltb_spec (N_of_ascii x) (N_of_ascii y)),
           (N.ltb_spec (N_of_ascii y) (N_of_ascii x)); try discriminate; try lia.
  intros H1 H2. f_equal; [|now apply IH].
  rewrite <- (ascii_N_embedding x), <- (ascii_N_embedding y). f_equal. lia.
Qed.

Lemma listed_before_total : Total (fun a b => Is_true (listed_before a b)).
Proof.
  intros a b. unfold listed_before, text_lt.
  destruct (text_le (session_date a.1.2) (session_date b.1.2)) eqn:Eab;
    [|left; cbn; exact I].
  destruct (text_le (session_date b.1.2) (session_date a.1.2)) eqn:Eba;
    [|right; cbn; exact I].
  rewrite (text_le_antisym _ _ Eab Eba), String.eqb_refl. cbn.
  destruct (text_le (date_created b.1.2) (date_created a.1.2)) eqn:C;
    [left; exact I|right].
  rewrite (text_le_total _ _ C). exact I.
Qed.

(** The listing is in the order of the query: each record stands before
    the next by [ORDER BY session_date DESC, date_created DESC]. *)
Theorem listing_newest_first (w : world) : Sorted newer_first (get_sessions w).
Proof.
  unfold get_sessions.
  apply (Sorted_fmap _ (fun a b => Is_true (listed_before a b)) newer_first).
  - intros a b H. unfold listed_before in H. unfold newer_first. cbn [listed_row].
    apply orb_prop_elim in H as [H|H]; [left; now apply Is_true_true|right].
    apply andb_prop_elim in H as [E L]. apply Is_true_true in E, L.
    apply String.eqb_eq in E. auto.
  - apply Sorted_merge_sort. exact listed_before_total.
Qed.

(** *** The photos of a session *)

Lemma get_session_photos_length (sid : Z) (w : world) :
  Z.of_nat (length (get_session_photos sid w)) = photos_owned w sid.
Proof.
  unfold get_session_photos, photos_owned, photos_of.
  now rewrite length_map, merge_sort_Permutation.
Qed.

(** The two listings agree: for every record of [get_sessions], its
    [photo_count] is the number of photos that [get_session_photos] returns
    for its id. *)
Theorem photo_count_matches_photo_listing (w : world) :
  Forall (fun r => photo_count r
                   = Z.of_nat (length (get_session_photos (listed_id r) w)))
         (get_sessions w).
Proof.
  rewrite get_sessions_permutation. apply Forall_forall. intros r Hr.
  apply list_elem_of_fmap in Hr as (s & -> & _). cbn [photo_count listed_id].
  now rewrite get_session_photos_length.
Qed.


(* ===================================================================== *)
(** ** Further properties of [allowed_file] and [upload_photos] *)
(* ===================================================================== *)

Lemma after_last_dot_none (s : string) : after_last_dot s = None -> no_dot s = true.
Proof.
  induction s as [|c s IH]; [reflexivity|]. cbn.
  destruct (after_last_dot s); [discriminate|].
  destruct (Ascii.eqb c "."); [discriminate|]. intros _. now apply IH.
Qed.

Lemma no_dot_after_last_dot (s : string) : no_dot s = true -> after_last_dot s = None.
Proof.
  induction s as [|c s IH]; [reflexivity|]. cbn.
  destruct (Ascii.eqb c "."); [discriminate|]. cbn. intros H. now rewrite IH.
Qed.

Lemma after_last_dot_append (stem ext : string) :
  no_dot ext = true -> after_last_dot (stem +:+ "." +:+ ext) = Some ext.
Proof.
  intros H. induction stem as [|c stem IH].
  - change ("" +:+ "." +:+ ext) with (String "." ext).
    cbn [after_last_dot]. now rewrite (no_dot_after_last_dot ext H).
  - change (String c stem +:+ "." +:+ ext) with (String c (stem +:+ "." +:+ ext)).
    cbn [after_last_dot]. now rewrite IH.
Qed.

Lemma after_last_dot_split (s ext : string) :
  after_last_dot s = Some ext ->
  exists stem, s = stem +:+ "." +:+ ext /\ no_dot ext = true.
Proof.
  revert ext. induction s as [|c s IH]; intros ext; [discriminate|]. cbn.
  destruct (after_last_dot s) as [e|] eqn:E.
  - intros [= <-]. destruct (IH e eq_refl) as (stem & -> & N).
    exists (String c stem). auto.
  - destruct (Ascii.eqb_spec c "."); [|discriminate]. intros [= <-]. subst c.
    exists "". split; [reflexivity|]. now apply after_last_dot_none.
Qed.

(** [allowed_file] accepts exactly the names that end in a dot followed by
    one of the four extensions in any letter case; only the text after the
    last dot counts, and a name without a dot is refused. *)
Theorem allowed_file_spec (name : string) :
  allowed_file name = true
  <-> exists stem ext,
        name = stem +:+ "." +:+ ext
        /\ no_dot ext = true
        /\ lower ext ∈ ALLOWED_EXTENSIONS.
Proof.
  unfold allowed_file. split.
  - destruct (after_last_dot name) as [ext|] eqn:E; [|discriminate]. intros H.
    destruct (after_last_dot_split _ _ E) as (stem & -> & N).
    exists stem, ext. split; [reflexivity|]. split; [exact N|].
    apply existsb_exists in H as (a & Ha & Eq). apply String.eqb_eq in Eq.
    rewrite Eq. now apply list_elem_of_In.
  - intros (stem & ext & -> & N & H). rewrite (after_last_dot_append _ _ N).
    apply existsb_exists. exists (lower ext). split; [now apply list_elem_of_In|].
    apply String.eqb_refl.
Qed.

Example allowed_file_examples :
  allowed_file "team.PNG" = true
  /\ allowed_file "archive.tar.gif" = true
  /\ allowed_file ".jpeg" = true
  /\ allowed_file "photo.png.exe" = false
  /\ allowed_file "png" = false
  /\ allowed_file "photo." = false.
Proof. vm_compute. repeat split; reflexivity. Qed.

Lemma stored_name_keeps_extension (name uuid : string) :
  allowed_file name = true ->
  allowed_file
    (uuid +:+ "." +:+ lower (match after_last_dot name with Some e => e | None => "" end))
  = true.
Proof.
  unfold allowed_file at 1. destruct (after_last_dot name) as [ext|]; [|discriminate].
  intros H. apply existsb_exists in H as (a & Ha & Eq). apply String.eqb_eq in Eq.
  rewrite Eq. unfold allowed_file.
  cbn in Ha. destruct Ha as [<-|[<-|[<-|[<-|[]]]]];
    (rewrite after_last_dot_append; reflexivity).
Qed.

(** The name a photo is stored under keeps an allowed extension: for an
    allowed client name, the [uuid] text, a dot and the lower-cased
    extension is an allowed name again, whatever the [uuid] text. *)
Theorem stored_name_allowed (name uuid : string) :
  allowed_file name = true ->
  allowed_file
    (uuid +:+ "." +:+ lower (match after_last_dot name with Some e => e | None => "" end))
  = true.
Proof. apply stored_name_keeps_extension. Qed.

Lemma stored_name_allowed_witness :
  allowed_file "Field.JPG" = true
  /\ allowed_file ("7c9e6679742540de944be07fc1f90ae7" +:+ "." +:+ "jpg") = true.
Proof.
  split; [reflexivity|].
  exact (stored_name_allowed "Field.JPG" "7c9e6679742540de944be07fc1f90ae7" eq_refl).
Defined.

Section UploadSuccess.
Variable uuid_hex : nat -> string.
Variable current_timestamp : string.

(** What a run of the loop that reaches its end has done. *)
Lemma upload_loop_finished (sid : Z) (fl : list upload) (st st' : loop_state) :
  upload_loop uuid_hex current_timestamp sid fl st = (Finished, st') ->
  exists new,
    uploaded_photos st' = uploaded_photos st ++ new
    /\ saved_paths st' = saved_paths st ++ map (fun u => stored_path (up_filename u)) new
    /\ Forall accepted_upload new
    /\ length new = length (filter (fun f => upload_filename f <> "") fl)
    /\ sessions (conn_db (loop_conn st')) = sessions (conn_db (loop_conn st))
    /\ size (session_photos (conn_db (loop_conn st')))
       = (size (session_photos (conn_db (loop_conn st))) + length new)%nat
    /\ (forall i p,
          session_photos (conn_db (loop_conn st')) !! i = Some p ->
          session_photos (conn_db (loop_conn st)) !! i = Some p
          \/ (session_id p = sid /\ file_size p <= MAX_FILE_SIZE
              /\ allowed_file (filename p) = true))
    /\ (forall q, is_Some (loop_files st !! q) -> is_Some (loop_files st' !! q))
    /\ Forall (fun u => is_Some (loop_files st' !! stored_path (up_filename u))) new.
Proof.
  revert st. induction fl as [|file rest IH]; intros st H; cbn [upload_loop] in H.
  - injection H as <-. exists []. rewrite !app_nil_r. cbn.
    repeat split; auto.
  - destruct (String.eqb_spec (upload_filename file) "") as [E|NE].
    { destruct (IH _ H) as (new & ? & ? & ? & L & ?). exists new.
      rewrite filter_cons_False by (intros N; now apply N). repeat split; tauto. }
    destruct (allowed_file (upload_filename file)) eqn:A; [|discriminate H].
    cbn [negb] in H.
    set (ext := lower (match after_last_dot (upload_filename file) with
                       | Some e => e | None => "" end)) in *.
    set (unique := uuid_hex (uuid_calls st) +:+ "." +:+ ext) in *.
    change (UPLOAD_FOLDER +:+ "/" +:+ unique) with (stored_path unique) in H.
    assert (G : getsize (<[stored_path unique := upload_bytes file]> (loop_files st))
                  (stored_path unique) = upload_bytes file).
    { unfold getsize. now rewrite lookup_insert_eq. }
    rewrite G in H.
    destruct (Z.ltb_spec MAX_FILE_SIZE (upload_bytes file)) as [|Hsize];
      [discriminate H|].
    destruct (IH _ H) as (new & U & S & Acc & L & Ses & Sz & Rows & Files & Saved).
    clear IH H. cbn [uploaded_photos saved_paths loop_conn loop_files] in *.
    assert (Uallowed : allowed_file unique = true)
      by (apply stored_name_keeps_extension; exact A).
    exists (mkUploaded unique (upload_filename file) (upload_bytes file) :: new).
    split; [now rewrite U, <- app_assoc|].
    split; [now rewrite S, <- app_assoc|].
    split; [constructor; [repeat split; assumption|exact Acc]|].
    split; [rewrite filter_cons_True by exact NE; cbn [length]; now rewrite L|].
    split; [exact Ses|].
    split.
    { rewrite Sz. unfold insert_photo. cbn [conn_db session_photos length].
      rewrite map_size_insert_None by apply next_rowid_fresh. lia. }
    split.
    { intros i p Hp. destruct (Rows i p Hp) as [Old|New]; [|now right].
      unfold insert_photo in Old. cbn [conn_db session_photos] in Old.
      apply lookup_insert_Some in Old as [[_ <-]|[_ Old]]; [right|now left].
      cbn [session_id file_size filename]. auto. }
    split.
    { intros q Hq. apply Files.
      destruct (decide (stored_path unique = q)) as [<-|Hne].
      - rewrite lookup_insert_eq. eauto.
      - now rewrite lookup_insert_ne. }
    constructor; [|exact Saved].
    cbn [up_filename]. apply Files. rewrite lookup_insert_eq. eauto.
Qed.


(** The database changes only when every file passes: on any other reply
    it is as before, however many files were written, and no reply comes
    with a change to the sessions. *)
Theorem upload_commits_all_or_nothing (fk_default : bool) (sid : Z)
    (photos : option (list upload)) (w : world) :
  let '(reply, w', _) :=
    upload_photos uuid_hex current_timestamp fk_default sid photos w in
  sessions (db w') = sessions (db w)
  /\ match reply with
     | PhotosUploaded _ => True
     | _ => db w' = db w
     end.
Proof.
  unfold upload_photos, connect. cbn [conn_db].
  destruct (sessions (db w) !! sid); [|auto].
  destruct photos as [fl|]; [|auto].
  destruct (upload_loop _ _ sid fl _) as [how st] eqn:L.
  destruct how; [|cbn; auto..].
  destruct (upload_loop_finished _ _ _ _ L) as (new & _ & _ & _ & _ & Ses & _).
  cbn in *. auto.
Qed.
End UploadSuccess.


(* ===================================================================== *)
(** ** Further properties of the validator: where a message comes from *)
(* ===================================================================== *)

(** Reads a block that returned [e] case by case and places a message of
    [e] in the list of the block's messages. *)
Ltac block_vocabulary :=
  let H := fresh "H" in let m := fresh "m" in let Hm := fresh "Hm" in
  intros H m Hm;
  repeat (cbn [mbind result_bind bind mret result_ret except_value_type except_value] in H;
          match type of H with
          | context [if ?c then _ else _] => destruct c
          | context [mbind _ ?r] => destruct r as [?|[]]
          end);
  cbn [mbind result_bind bind mret result_ret except_value_type except_value] in H;
  try discriminate H;
  injection H as <-;
  unfold when in Hm;
  repeat match type of Hm with
         | context [if ?c then _ else _] => destruct c
         end;
  cbn [app] in Hm;
  repeat (apply elem_of_cons in Hm as [->|Hm]);
  try (now apply elem_of_nil in Hm);
  apply list_elem_of_In; cbn; tauto.

Lemma required_vocabulary (data : gmap string value) (m : string) :
  m ∈ required_errors data ->
  m ∈ ["School Name is required"; "Session Type is required";
       "Location is required"; "Activator is required"; "Year Group is required";
       "Male Participants is required"; "Female Participants is required";
       "Session Date is required"; "Session Duration is required"].
Proof.
  unfold required_errors. rewrite list_elem_of_In, in_flat_map.
  intros (f & Hf & Hm). unfold when in Hm.
  destruct (required_missing data f); [|destruct Hm]. destruct Hm as [<-|[]].
  apply list_elem_of_In.
  change (In (required_message f) (map required_message required_fields)).
  now apply in_map.
Qed.

Lemma school_name_vocabulary (data : gmap string value) (e : list string) :
  school_name_errors data = Ok e ->
  forall m, m ∈ e ->
    m ∈ ["School name must be at least 2 characters long";
         "School name must be less than 100 characters"].
Proof. unfold school_name_errors. block_vocabulary. Qed.

Lemma session_type_vocabulary (data : gmap string value) (e : list string) :
  session_type_errors data = Ok e ->
  forall m, m ∈ e ->
    m ∈ ["Session type must be at least 2 characters long";
         "Session type must be less than 50 characters"].
Proof. unfold session_type_errors. block_vocabulary. Qed.

Lemma location_vocabulary (data : gmap string value) (e : list string) :
  location_errors data = Ok e ->
  forall m, m ∈ e ->
    m ∈ ["Location must be at least 2 characters long";
         "Location must be less than 100 characters"].
Proof. unfold location_errors. block_vocabulary. Qed.

Lemma activator_vocabulary (data : gmap string value) (e : list string) :
  activator_errors data = Ok e ->
  forall m, m ∈ e ->
    m ∈ ["Activator name must be at least 2 characters long";
         "Activator name must be less than 50 characters";
         "Activator name can only contain letters, spaces, hyphens, and periods"].
Proof. unfold activator_errors. block_vocabulary. Qed.

Lemma year_group_vocabulary (data : gmap string value) (e : list string) :
  year_group_errors data = Ok e ->
  forall m, m ∈ e -> m ∈ ["Please select a valid year group"].
Proof. unfold year_group_errors. block_vocabulary. Qed.

Lemma teacher_feedback_vocabulary (data : gmap string value) (e : list string) :
  teacher_feedback_errors data = Ok e ->
  forall m, m ∈ e -> m ∈ ["Teacher feedback must be less than 1000 characters"].
Proof. unfold teacher_feedback_errors. block_vocabulary. Qed.

Section Vocabulary.
Variable int_of_str : string -> option Z.
Variable float_of_str : string -> option pyfloat.
Variable strptime_ymd : string -> option Z.
Variable now : datetime.

Local Abbreviation validate :=
  (validate_session_data int_of_str float_of_str strptime_ymd now).

Lemma male_vocabulary (data : gmap string value) (e : list string) :
  male_errors int_of_str data = Ok e ->
  forall m, m ∈ e ->
    m ∈ ["Male participants cannot be negative";
         "Male participants seems too high (max 1000)";
         "Male participants must be a valid number"].
Proof. unfold male_errors. block_vocabulary. Qed.

Lemma female_vocabulary (data : gmap string value) (e : list string) :
  female_errors int_of_str data = Ok e ->
  forall m, m ∈ e ->
    m ∈ ["Female participants cannot be negative";
         "Female participants seems too high (max 1000)";
         "Female participants must be a valid number"].
Proof. unfold female_errors. block_vocabulary. Qed.

Lemma total_vocabulary (data : gmap string value) (e : list string) :
  total_errors int_of_str data = Ok e ->
  forall m, m ∈ e ->
    m ∈ ["Total participants must be greater than 0";
         "Total participants seems too high (max 2000)"].
Proof. unfold total_errors. block_vocabulary. Qed.

Lemma duration_vocabulary (data : gmap string value) (e : list string) :
  duration_errors int_of_str data = Ok e ->
  forall m, m ∈ e ->
    m ∈ ["Session duration must be greater than 0 minutes";
         "Session duration seems too long (max 8 hours)";
         "Session duration must be a valid number"].
Proof. unfold duration_errors. block_vocabulary. Qed.

Lemma session_date_vocabulary (data : gmap string value) (e : list string) :
  session_date_errors strptime_ymd now data = Ok e ->
  forall m, m ∈ e ->
    m ∈ ["Session date cannot be in the future"; "Session date seems too old";
         "Please provide a valid session date"].
Proof. unfold session_date_errors. block_vocabulary. Qed.

Lemma latitude_vocabulary (data : gmap string value) (e : list string) :
  latitude_errors float_of_str data = Ok e ->
  forall m, m ∈ e ->
    m ∈ ["Latitude must be between -90 and 90"; "Latitude must be a valid number"].
Proof. unfold latitude_errors. block_vocabulary. Qed.

Lemma longitude_vocabulary (data : gmap string value) (e : list string) :
  longitude_errors float_of_str data = Ok e ->
  forall m, m ∈ e ->
    m ∈ ["Longitude must be between -180 and 180"; "Longitude must be a valid number"].
Proof. unfold longitude_errors. block_vocabulary. Qed.

(** The validator returns exactly when every block returns, and then its
    list is the lists of the blocks one after the other. *)
Lemma validate_parts (data : gmap string value) (errs : list string) :
  validate data = Ok errs <->
  exists e1 e2 e3 e4 e5 e6 e7 e8 e9 e10 e11 e12 e13,
    school_name_errors data = Ok e1
    /\ session_type_errors data = Ok e2
    /\ location_errors data = Ok e3
    /\ activator_errors data = Ok e4
    /\ year_group_errors data = Ok e5
    /\ male_errors int_of_str data = Ok e6
    /\ female_errors int_of_str data = Ok e7
    /\ total_errors int_of_str data = Ok e8
    /\ duration_errors int_of_str data = Ok e9
    /\ session_date_errors strptime_ymd now data = Ok e10
    /\ latitude_errors float_of_str data = Ok e11
    /\ longitude_errors float_of_str data = Ok e12
    /\ teacher_feedback_errors data = Ok e13
    /\ errs = required_errors data ++ e1 ++ e2 ++ e3 ++ e4 ++ e5 ++ e6 ++ e7
              ++ e8 ++ e9 ++ e10 ++ e11 ++ e12 ++ e13.
Proof.
  unfold validate_session_data. split.
  - intros H.
    repeat match type of H with
           | mbind _ ?r = Ok _ =>
               destruct r; cbn [mbind result_bind bind] in H; [|discriminate H]
           end.
    injection H as <-. do 13 eexists. repeat (split; [reflexivity|]). reflexivity.
  - intros (e1 & e2 & e3 & e4 & e5 & e6 & e7 & e8 & e9 & e10 & e11 & e12 & e13
            & -> & -> & -> & -> & -> & -> & -> & -> & -> & -> & -> & -> & -> & ->).
    reflexivity.
Qed.
End Vocabulary.

(** Moves a message of a block's result to the block's list of messages. *)
Ltac to_vocabulary Hm :=
  match type of Hm with
  | _ ∈ required_errors _ => apply required_vocabulary in Hm
  | _ ∈ ?e =>
      match goal with
      | E : school_name_errors _ = Ok e |- _ => apply (school_name_vocabulary _ _ E) in Hm
      | E : session_type_errors _ = Ok e |- _ => apply (session_type_vocabulary _ _ E) in Hm
      | E : location_errors _ = Ok e |- _ => apply (location_vocabulary _ _ E) in Hm
      | E : activator_errors _ = Ok e |- _ => apply (activator_vocabulary _ _ E) in Hm
      | E : year_group_errors _ = Ok e |- _ => apply (year_group_vocabulary _ _ E) in Hm
      | E : male_errors _ _ = Ok e |- _ => apply (male_vocabulary _ _ _ E) in Hm
      | E : female_errors _ _ = Ok e |- _ => apply (female_vocabulary _ _ _ E) in Hm
      | E : total_errors _ _ = Ok e |- _ => apply (total_vocabulary _ _ _ E) in Hm
      | E : duration_errors _ _ = Ok e |- _ => apply (duration_vocabulary _ _ _ E) in Hm
      | E : session_date_errors _ _ _ = Ok e |- _ =>
          apply (session_date_vocabulary _ _ _ _ E) in Hm
      | E : latitude_errors _ _ = Ok e |- _ => apply (latitude_vocabulary _ _ _ E) in Hm
      | E : longitude_errors _ _ = Ok e |- _ => apply (longitude_vocabulary _ _ _ E) in Hm
      | E : teacher_feedback_errors _ = Ok e |- _ =>
          apply (teacher_feedback_vocabulary _ _ E) in Hm
      end
  end.

(** Splits [Hm : m ∈ e0 ++ e1 ++ ...] by the block the message is from and
    closes the cases of the blocks that cannot emit the literal [m]. *)
Ltac message_origin Hm :=
  repeat match type of Hm with
         | _ ∈ _ ++ _ => apply elem_of_app in Hm as [Hm|Hm]
         end;
  try solve [to_vocabulary Hm; apply list_elem_of_In in Hm; cbn in Hm;
             intuition discriminate].

(** Places a member of one block's list in the concatenation. *)
Ltac in_parts :=
  repeat first [assumption
               | apply elem_of_app; left; assumption
               | apply elem_of_app; right].

Section MessageOrigins.
Variable int_of_str : string -> option Z.
Variable float_of_str : string -> option pyfloat.
Variable strptime_ymd : string -> option Z.
Variable now : datetime.

Local Abbreviation validate :=
  (validate_session_data int_of_str float_of_str strptime_ymd now).

(** In the list the validator returns, the "is required" message of a
    mandatory field is present exactly when the field's value is falsy
    (missing, [None], [False], a zero, an empty string, list or dict) or a
    string of white space: no other rule emits it. *)
Theorem required_message_iff_missing (data : gmap string value)
    (errs : list string) (field : string) :
  validate data = Ok errs ->
  field ∈ required_fields ->
  required_message field ∈ errs <-> required_missing data field = true.
Proof.
  intros V Hf. rewrite <- (required_errors_spec data field Hf).
  apply validate_parts in V
    as (e1 & e2 & e3 & e4 & e5 & e6 & e7 & e8 & e9 & e10 & e11 & e12 & e13
        & E1 & E2 & E3 & E4 & E5 & E6 & E7 & E8 & E9 & E10 & E11 & E12 & E13 & ->).
  split; [|intros Hm; apply elem_of_app; now left].
  intros Hm. unfold required_fields in Hf.
  repeat (apply elem_of_cons in Hf as [->|Hf]); try (now apply elem_of_nil in Hf);
    match type of Hm with
    | required_message ?f ∈ _ =>
        let m := eval vm_compute in (required_message f) in
        change (required_message f) with m in Hm |- *
    end;
    message_origin Hm; exact Hm.
Qed.

Lemma male_errors_inv (data : gmap string value) (e : list string) :
  male_errors int_of_str data = Ok e ->
  (exists n, int_builtin int_of_str (get_default data "male_participants" (VInt 0)) = Ok n
             /\ e = when (n <? 0) "Male participants cannot be negative"
                    ++ when (1000 <? n) "Male participants seems too high (max 1000)")
  \/ ((exists x, int_builtin int_of_str (get_default data "male_participants" (VInt 0))
                 = Raise x)
      /\ e = ["Male participants must be a valid number"]).
Proof.
  unfold male_errors.
  destruct (int_builtin int_of_str _) as [n|[]]; cbn; intros H;
    try discriminate H; injection H as <-; eauto.
Qed.

Lemma female_errors_inv (data : gmap string value) (e : list string) :
  female_errors int_of_str data = Ok e ->
  (exists n, int_builtin int_of_str (get_default data "female_participants" (VInt 0)) = Ok n
             /\ e = when (n <? 0) "Female participants cannot be negative"
                    ++ when (1000 <? n) "Female participants seems too high (max 1000)")
  \/ ((exists x, int_builtin int_of_str (get_default data "female_participants" (VInt 0))
                 = Raise x)
      /\ e = ["Female participants must be a valid number"]).
Proof.
  unfold female_errors.
  destruct (int_builtin int_of_str _) as [n|[]]; cbn; intros H;
    try discriminate H; injection H as <-; eauto.
Qed.

(** Decides membership of a literal in a list built from [when]. *)
Ltac in_whens :=
  unfold when in *;
  repeat match goal with
         | |- context [?a <? ?b] => destruct (Z.ltb_spec a b)
         | |- context [?a <=? ?b] => destruct (Z.leb_spec a b)
         | |- context [?a =? ?b] => destruct (Z.eqb_spec a b)
         | H : context [?a <? ?b] |- _ => destruct (Z.ltb_spec a b)
         | H : context [?a <=? ?b] |- _ => destruct (Z.leb_spec a b)
         | H : context [?a =? ?b] |- _ => destruct (Z.eqb_spec a b)
         end;
  cbn [app orb andb] in *;
  repeat match goal with
         | H : _ ∈ _ :: _ |- _ => apply elem_of_cons in H as [H|H]; try discriminate H
         | H : _ ∈ [] |- _ => now apply elem_of_nil in H
         end;
  try lia;
  try (apply list_elem_of_In; cbn; tauto).

Lemma male_messages (data : gmap string value) (e : list string) :
  male_errors int_of_str data = Ok e ->
  let male := int_builtin int_of_str (get_default data "male_participants" (VInt 0)) in
  ("Male participants must be a valid number" ∈ e <-> exists x, male = Raise x)
  /\ ("Male participants cannot be negative" ∈ e <-> exists n, male = Ok n /\ n < 0)
  /\ ("Male participants seems too high (max 1000)" ∈ e
      <-> exists n, male = Ok n /\ 1000 < n).
Proof.
  intros E. cbn zeta.
  destruct (male_errors_inv data e E) as [(n & -> & ->)|[[x ->] ->]].
  - split; [|split]; (split; [intros Hm|intros Hx]).
    + in_whens.
    + destruct Hx as [x [=]].
    + exists n. split; [reflexivity|]. in_whens.
    + destruct Hx as (k & [= <-] & Hlt). in_whens.
    + exists n. split; [reflexivity|]. in_whens.
    + destruct Hx as (k & [= <-] & Hlt). in_whens.
  - split; [|split]; (split; [intros Hm|intros Hx]).
    + eauto.
    + in_whens.
    + in_whens.
    + destruct Hx as (k & [=] & _).
    + in_whens.
    + destruct Hx as (k & [=] & _).
Qed.

Lemma female_messages (data : gmap string value) (e : list string) :
  female_errors int_of_str data = Ok e ->
  let female := int_builtin int_of_str (get_default data "female_participants" (VInt 0)) in
  ("Female participants must be a valid number" ∈ e <-> exists x, female = Raise x)
  /\ ("Female participants cannot be negative" ∈ e <-> exists n, female = Ok n /\ n < 0)
  /\ ("Female participants seems too high (max 1000)" ∈ e
      <-> exists n, female = Ok n /\ 1000 < n).
Proof.
  intros E. cbn zeta.
  destruct (female_errors_inv data e E) as [(n & -> & ->)|[[x ->] ->]].
  - split; [|split]; (split; [intros Hm|intros Hx]).
    + in_whens.
    + destruct Hx as [x [=]].
    + exists n. split; [reflexivity|]. in_whens.
    + destruct Hx as (k & [= <-] & Hlt). in_whens.
    + exists n. split; [reflexivity|]. in_whens.
    + destruct Hx as (k & [= <-] & Hlt). in_whens.
  - split; [|split]; (split; [intros Hm|intros Hx]).
    + eauto.
    + in_whens.
    + in_whens.
    + destruct Hx as (k & [=] & _).
    + in_whens.
    + destruct Hx as (k & [=] & _).
Qed.

(** The three messages about a participant count tell its case apart:
    the type message is present exactly when [int()] fails on the value,
    "cannot be negative" exactly when it converts to a number below 0,
    "seems too high" exactly when it converts to a number above 1000. *)
Theorem count_messages_exact (data : gmap string value) (errs : list string) :
  validate data = Ok errs ->
  let male := int_builtin int_of_str (get_default data "male_participants" (VInt 0)) in
  let female := int_builtin int_of_str (get_default data "female_participants" (VInt 0)) in
  ("Male participants must be a valid number" ∈ errs <-> exists x, male = Raise x)
  /\ ("Male participants cannot be negative" ∈ errs <-> exists n, male = Ok n /\ n < 0)
  /\ ("Male participants seems too high (max 1000)" ∈ errs
      <-> exists n, male = Ok n /\ 1000 < n)
  /\ ("Female participants must be a valid number" ∈ errs <-> exists x, female = Raise x)
  /\ ("Female participants cannot be negative" ∈ errs
      <-> exists n, female = Ok n /\ n < 0)
  /\ ("Female participants seems too high (max 1000)" ∈ errs
      <-> exists n, female = Ok n /\ 1000 < n).
Proof.
  intros V. cbn zeta.
  apply validate_parts in V
    as (e1 & e2 & e3 & e4 & e5 & e6 & e7 & e8 & e9 & e10 & e11 & e12 & e13
        & E1 & E2 & E3 & E4 & E5 & E6 & E7 & E8 & E9 & E10 & E11 & E12 & E13 & ->).
  destruct (male_messages data e6 E6) as (M1 & M2 & M3).
  destruct (female_messages data e7 E7) as (F1 & F2 & F3).
  cbn zeta in *.
  rewrite <- M1, <- M2, <- M3, <- F1, <- F2, <- F3.
  repeat split; intros Hm; try (message_origin Hm; exact Hm); in_parts.
Qed.
Lemma total_messages (data : gmap string value) (e : list string) :
  total_errors int_of_str data = Ok e ->
  let male := int_builtin int_of_str (get_default data "male_participants" (VInt 0)) in
  let female := int_builtin int_of_str (get_default data "female_participants" (VInt 0)) in
  ("Total participants must be greater than 0" ∈ e
   <-> exists m f, male = Ok m /\ female = Ok f /\ m + f = 0)
  /\ ("Total participants seems too high (max 2000)" ∈ e
      <-> exists m f, male = Ok m /\ female = Ok f /\ 2000 < m + f).
Proof.
  unfold total_errors. cbn zeta.
  destruct (int_builtin int_of_str (get_default data "male_participants" _)) as [m|x];
    [destruct (int_builtin int_of_str (get_default data "female_participants" _))
       as [f|x]|];
    cbn [mbind result_bind bind mret result_ret except_value_type];
    try (destruct x; cbn [except_value_type]); intros E; try discriminate E;
    injection E as <-;
    (split; (split; [intros Hm|intros (m' & f' & Hm' & Hf' & Hlt)])); 
    try discriminate Hm'; try discriminate Hf';
    try (now apply elem_of_nil in Hm).
  - exists m, f. split; [reflexivity|]. split; [reflexivity|]. in_whens.
  - injection Hm' as <-. injection Hf' as <-. in_whens.
  - exists m, f. split; [reflexivity|]. split; [reflexivity|]. in_whens.
  - injection Hm' as <-. injection Hf' as <-. in_whens.
Qed.

Lemma duration_messages (data : gmap string value) (e : list string) :
  duration_errors int_of_str data = Ok e ->
  let duration := int_builtin int_of_str (get_default data "session_duration" (VInt 0)) in
  ("Session duration must be a valid number" ∈ e <-> exists x, duration = Raise x)
  /\ ("Session duration must be greater than 0 minutes" ∈ e
      <-> exists n, duration = Ok n /\ n <= 0)
  /\ ("Session duration seems too long (max 8 hours)" ∈ e
      <-> exists n, duration = Ok n /\ 480 < n).
Proof.
  unfold duration_errors. cbn zeta.
  destruct (int_builtin int_of_str _) as [n|x];
    cbn [mbind result_bind bind mret result_ret except_value_type];
    try (destruct x; cbn [except_value_type]); intros E; try discriminate E;
    injection E as <-;
    (split; [|split]; (split; [intros Hm|intros Hx])).
  all: try (destruct Hx as (k & [=] & _); fail).
  all: try (destruct Hx as (k & [= <-] & Hlt); in_whens; fail).
  all: try (destruct Hx as [k [=]]; fail).
  all: try (eexists; reflexivity).
  all: try (in_whens; fail).
  all: try (eexists; split; [reflexivity|]; in_whens).
Qed.

Lemma session_date_messages (data : gmap string value) (e : list string) :
  session_date_errors strptime_ymd now data = Ok e ->
  0 <= time_of_day now ->
  ("Please provide a valid session date" ∈ e
   <-> exists s, get data "session_date" = VStr s /\ s <> "" /\ strptime_ymd s = None)
  /\ ("Session date cannot be in the future" ∈ e
      <-> exists s ord, get data "session_date" = VStr s /\ s <> ""
                        /\ strptime_ymd s = Some ord /\ date_ord now < ord)
  /\ ("Session date seems too old" ∈ e
      <-> exists s ord, get data "session_date" = VStr s /\ s <> ""
                        /\ strptime_ymd s = Some ord
                        /\ ord < date_ord datetime_2020_1_1).
Proof.
  unfold session_date_errors, index, get. intros E Hnow.
  assert (T2020 : time_of_day datetime_2020_1_1 = 0) by reflexivity.
  destruct (data !! "session_date") as [v|]; lazy beta iota;
    [|cbn in E; injection E as <-].
  2: { split; [|split]; (split; [intros Hm; now apply elem_of_nil in Hm|]).
       - intros (s & [=] & _).
       - intros (s & ord & [=] & _).
       - intros (s & ord & [=] & _). }
  destruct v as [|b|z|f|txt|l|l].
  1-4,6-7: destruct (truthy _);
         cbn [mbind result_bind bind mret result_ret except_value strptime] in E;
         [discriminate E|injection E as <-];
         (split; [|split]; (split; [intros Hm; now apply elem_of_nil in Hm|]));
         [intros (s & [=] & _)|intros (s & ord & [=] & _)|intros (s & ord & [=] & _)].
  cbn [truthy] in E. destruct (String.eqb_spec txt "") as [Hs|Hs]; [subst txt|]; cbn [negb] in E.
  - injection E as <-.
    split; [|split]; (split; [intros Hm; now apply elem_of_nil in Hm|]).
    + intros (s & [= <-] & Hs & _). now destruct Hs.
    + intros (s & ord & [= <-] & Hs & _). now destruct Hs.
    + intros (s & ord & [= <-] & Hs & _). now destruct Hs.
  - cbn [mbind result_bind bind mret result_ret except_value strptime] in E.
    destruct (strptime_ymd txt) as [ord|] eqn:P;
      cbn [mbind result_bind bind mret result_ret except_value strptime] in E;
      injection E as <-.
    + unfold dt_lt, dt_gt. cbn [date_ord time_of_day]. rewrite T2020.
      split; [|split]; (split; [intros Hm|intros Hx]).
      * in_whens.
      * destruct Hx as (s' & [= <-] & _ & Q). congruence.
      * exists txt, ord. split; [reflexivity|]. split; [exact Hs|].
        split; [exact P|]. in_whens.
      * destruct Hx as (s' & ord' & [= <-] & _ & Q & Hlt).
        assert (ord' = ord) as -> by congruence. in_whens.
      * exists txt, ord. split; [reflexivity|]. split; [exact Hs|].
        split; [exact P|]. in_whens.
      * destruct Hx as (s' & ord' & [= <-] & _ & Q & Hlt).
        assert (ord' = ord) as -> by congruence. in_whens.
    + split; [|split]; (split; [intros Hm|intros Hx]).
      * exists txt. auto.
      * apply list_elem_of_In. cbn. tauto.
      * in_whens.
      * destruct Hx as (s' & ord' & [= <-] & _ & Q & _). congruence.
      * in_whens.
      * destruct Hx as (s' & ord' & [= <-] & _ & Q & _). congruence.
Qed.

(** The total rule adds the two counts that [int()] gives: "must be
    greater than 0" is present exactly when both convert and their sum is 0
    (a sum below 0 is not reported by this rule), "seems too high" exactly
    when both convert and the sum is above 2000; when either count does not
    convert the rule is silent. *)
Theorem total_messages_exact (data : gmap string value) (errs : list string) :
  validate data = Ok errs ->
  let male := int_builtin int_of_str (get_default data "male_participants" (VInt 0)) in
  let female := int_builtin int_of_str (get_default data "female_participants" (VInt 0)) in
  ("Total participants must be greater than 0" ∈ errs
   <-> exists m f, male = Ok m /\ female = Ok f /\ m + f = 0)
  /\ ("Total participants seems too high (max 2000)" ∈ errs
      <-> exists m f, male = Ok m /\ female = Ok f /\ 2000 < m + f).
Proof.
  intros V. cbn zeta.
  apply validate_parts in V
    as (e1 & e2 & e3 & e4 & e5 & e6 & e7 & e8 & e9 & e10 & e11 & e12 & e13
        & E1 & E2 & E3 & E4 & E5 & E6 & E7 & E8 & E9 & E10 & E11 & E12 & E13 & ->).
  destruct (total_messages data e8 E8) as (T1 & T2).
  cbn zeta in *. rewrite <- T1, <- T2.
  repeat split; intros Hm; try (message_origin Hm; exact Hm); in_parts.
Qed.

(** The three messages about the duration exclude one another by case:
    the type message is present exactly when [int()] fails on the value,
    "must be greater than 0 minutes" exactly when it converts to a number
    that is 0 or less, "seems too long" exactly when it converts to a
    number above 480. *)
Theorem duration_messages_exact (data : gmap string value) (errs : list string) :
  validate data = Ok errs ->
  let duration := int_builtin int_of_str (get_default data "session_duration" (VInt 0)) in
  ("Session duration must be a valid number" ∈ errs <-> exists x, duration = Raise x)
  /\ ("Session duration must be greater than 0 minutes" ∈ errs
      <-> exists n, duration = Ok n /\ n <= 0)
  /\ ("Session duration seems too long (max 8 hours)" ∈ errs
      <-> exists n, duration = Ok n /\ 480 < n).
Proof.
  intros V. cbn zeta.
  apply validate_parts in V
    as (e1 & e2 & e3 & e4 & e5 & e6 & e7 & e8 & e9 & e10 & e11 & e12 & e13
        & E1 & E2 & E3 & E4 & E5 & E6 & E7 & E8 & E9 & E10 & E11 & E12 & E13 & ->).
  destruct (duration_messages data e9 E9) as (D1 & D2 & D3).
  cbn zeta in *. rewrite <- D1, <- D2, <- D3.
  repeat split; intros Hm; try (message_origin Hm; exact Hm); in_parts.
Qed.

(** The date rule compares days: with a clock that reads a time of day of
    0 or more, "cannot be in the future" is present exactly when the date
    is a non-empty text that [strptime] reads as a day after today's,
    "seems too old" exactly when it reads as a day before 2020-01-01, and
    the format message exactly when [strptime] rejects the text.  Today's
    date and 2020-01-01 itself pass. *)
Theorem session_date_messages_exact (data : gmap string value) (errs : list string) :
  validate data = Ok errs ->
  0 <= time_of_day now ->
  ("Please provide a valid session date" ∈ errs
   <-> exists s, get data "session_date" = VStr s /\ s <> "" /\ strptime_ymd s = None)
  /\ ("Session date cannot be in the future" ∈ errs
      <-> exists s ord, get data "session_date" = VStr s /\ s <> ""
                        /\ strptime_ymd s = Some ord /\ date_ord now < ord)
  /\ ("Session date seems too old" ∈ errs
      <-> exists s ord, get data "session_date" = VStr s /\ s <> ""
                        /\ strptime_ymd s = Some ord
                        /\ ord < date_ord datetime_2020_1_1).
Proof.
  intros V Hnow.
  apply validate_parts in V
    as (e1 & e2 & e3 & e4 & e5 & e6 & e7 & e8 & e9 & e10 & e11 & e12 & e13
        & E1 & E2 & E3 & E4 & E5 & E6 & E7 & E8 & E9 & E10 & E11 & E12 & E13 & ->).
  destruct (session_date_messages data e10 E10 Hnow) as (D1 & D2 & D3).
  rewrite <- D1, <- D2, <- D3.
  repeat split; intros Hm; try (message_origin Hm; exact Hm); in_parts.
Qed.

End MessageOrigins.

Lemma required_message_iff_missing_witness :
  exists errs,
    Sample.validate malformed_but_typed = Ok errs
    /\ "location" ∈ required_fields
    /\ (required_message "location" ∈ errs
        <-> required_missing malformed_but_typed "location" = true).
Proof.
  eexists. split; [vm_compute; reflexivity|].
  assert (F : "location" ∈ required_fields)
    by (apply list_elem_of_In; cbn; tauto).
  split; [exact F|].
  apply (required_message_iff_missing Sample.int_of_str Sample.float_of_str
           Sample.strptime_ymd Sample.noon_2025_01_16 malformed_but_typed);
    [vm_compute; reflexivity|exact F].
Defined.

Lemma count_messages_exact_witness :
  exists errs,
    Sample.validate overbooked = Ok errs
    /\ "Male participants seems too high (max 1000)" ∈ errs.
Proof.
  eexists. split; [vm_compute; reflexivity|].
  destruct (count_messages_exact Sample.int_of_str Sample.float_of_str
              Sample.strptime_ymd Sample.noon_2025_01_16 overbooked _
              ltac:(vm_compute; reflexivity)) as (_ & _ & High & _).
  apply High. exists 1200. split; [vm_compute; reflexivity|lia].
Defined.

Lemma total_messages_exact_witness :
  exists errs,
    Sample.validate overbooked = Ok errs
    /\ ~ "Total participants must be greater than 0" ∈ errs.
Proof.
  eexists. split; [vm_compute; reflexivity|].
  destruct (total_messages_exact Sample.int_of_str Sample.float_of_str
              Sample.strptime_ymd Sample.noon_2025_01_16 overbooked _
              ltac:(vm_compute; reflexivity)) as (Zero & _).
  intros Hm. apply Zero in Hm as (m & f & M & F & S).
  vm_compute in M. vm_compute in F. injection M as <-. injection F as <-.
  discriminate S.
Defined.

Lemma duration_messages_exact_witness :
  exists errs,
    Sample.validate malformed_but_typed = Ok errs
    /\ "Session duration must be a valid number" ∈ errs.
Proof.
  eexists. split; [vm_compute; reflexivity|].
  destruct (duration_messages_exact Sample.int_of_str Sample.float_of_str
              Sample.strptime_ymd Sample.noon_2025_01_16 malformed_but_typed _
              ltac:(vm_compute; reflexivity)) as (Type_ & _).
  apply Type_. eexists. vm_compute. reflexivity.
Defined.

Lemma session_date_messages_exact_witness :
  0 <= time_of_day Sample.noon_2025_01_16
  /\ exists errs,
       Sample.validate overbooked = Ok errs
       /\ "Session date cannot be in the future" ∈ errs.
Proof.
  assert (Hnow : 0 <= time_of_day Sample.noon_2025_01_16)
    by (vm_compute; discriminate).
  split; [exact Hnow|].
  eexists. split; [vm_compute; reflexivity|].
  destruct (session_date_messages_exact Sample.int_of_str Sample.float_of_str
              Sample.strptime_ymd Sample.noon_2025_01_16 overbooked _
              ltac:(vm_compute; reflexivity) Hnow) as (_ & Future & _).
  apply Future. eexists _, _.
  split; [vm_compute; reflexivity|]. split; [discriminate|].
  split; vm_compute; reflexivity.
Defined.

(* ===================================================================== *)
(** ** Further properties of the write path: what a stored record holds *)
(* ===================================================================== *)

Lemma lstrip_length (s : string) : (String.length (lstrip s) <= String.length s)%nat.
Proof.
  induction s as [|c s IH]; cbn; [lia|]. destruct (isspace c); cbn; lia.
Qed.

Lemma rstrip_length (s : string) : (String.length (rstrip s) <= String.length s)%nat.
Proof.
  induction s as [|c s IH]; cbn; [lia|].
  destruct (rstrip s); [destruct (isspace c)|]; cbn in *; lia.
Qed.

Lemma strip_len (s : string) : len (strip s) <= len s.
Proof.
  unfold len, strip. pose proof (rstrip_length (lstrip s)). pose proof (lstrip_length s).
  lia.
Qed.

Lemma whens_nil2 (a b : bool) (x y : string) :
  when a x ++ when b y = [] -> a = false /\ b = false.
Proof. destruct a, b; cbn; intros H; try discriminate H; auto. Qed.

Lemma in_strs_member (s : string) (l : list string) :
  in_strs (VStr s) l = true -> s ∈ l.
Proof.
  unfold in_strs. rewrite existsb_exists. intros (x & Hx & E).
  apply String.eqb_eq in E. subst. now apply list_elem_of_In.
Qed.

Section Limits.
Variable int_of_str : string -> option Z.
Variable float_of_str : string -> option pyfloat.
Variable strptime_ymd : string -> option Z.
Variable now : datetime.
Variable current_timestamp : string.

Local Abbreviation validate :=
  (validate_session_data int_of_str float_of_str strptime_ymd now).
Local Abbreviation create :=
  (create_session int_of_str float_of_str strptime_ymd now current_timestamp).
Local Abbreviation update :=
  (update_session int_of_str float_of_str strptime_ymd now).

(** The parameters of the INSERT, computed from a mapping that the
    validator accepts, are within the limits of the rules. *)
Lemma insert_parameters_within_limits (data : gmap string value) (ts : string)
    (row : session) :
  validate data = Ok [] ->
  insert_parameters int_of_str float_of_str ts data = Ok row ->
  within_limits strptime_ymd now row.
Proof.
  intros V P.
  apply validate_parts in V
    as (e1 & e2 & e3 & e4 & e5 & e6 & e7 & e8 & e9 & e10 & e11 & e12 & e13
        & E1 & E2 & E3 & E4 & E5 & E6 & E7 & E8 & E9 & E10 & E11 & E12 & E13 & V).
  symmetry in V.
  repeat match type of V with
         | _ ++ _ = [] => apply app_eq_nil in V as [? V]
         end.
  subst.
  match goal with R : required_errors data = [] |- _ =>
    apply required_errors_nil in R; unfold required_fields in R;
    repeat (apply Forall_cons in R as [? R]); clear R end.
  unfold school_name_errors, session_type_errors, location_errors, activator_errors,
    year_group_errors, male_errors, female_errors, total_errors, duration_errors,
    session_date_errors, latitude_errors, longitude_errors, teacher_feedback_errors,
    insert_parameters in *.
  repeat match goal with
         | T : truthy (get data ?k) = true |- _ =>
             rewrite ?T, ?(index_get data k T), ?(get_default_get data k _ T) in *;
             revert T
         end.
  intros _ _ _ _ _ _ _ _ _.
  destruct (truthy (get data "latitude")) eqn:Tlat;
    [rewrite (index_get data _ Tlat) in *|];
  (destruct (truthy (get data "longitude")) eqn:Tlng;
    [rewrite (index_get data _ Tlng) in *|]);
  (destruct (truthy (get data "teacher_feedback")) eqn:Tfb;
    [rewrite (index_get data _ Tfb), (get_default_get data _ _ Tfb) in *|]).
  all: clear Tlat Tlng Tfb.
  all: repeat match goal with
         | H : context [get ?d ?k] |- _ =>
             let v := fresh "v" in
             set (v := get d k) in *; clearbody v
         end.
  all: cbn [mbind result_bind bind mret result_ret] in *.
  all: repeat match goal with
         | H : context [strip_method ?v] |- _ =>
             is_var v; destruct v; cbn [strip_method bind_text len_builtin strptime mbind result_bind bind mret result_ret except_value_type except_value] in *;
             try discriminate
         | H : context [bind_text ?v] |- _ =>
             is_var v; destruct v; cbn [strip_method bind_text len_builtin strptime mbind result_bind bind mret result_ret except_value_type except_value] in *;
             try discriminate
         end.
  all: repeat match goal with
         | H : context [int_builtin ?p ?v] |- _ =>
             destruct (int_builtin p v) as [?|[]];
             cbn [mbind result_bind bind mret result_ret except_value_type except_value] in *;
             try discriminate
         | H : context [float_builtin ?p ?v] |- _ =>
             destruct (float_builtin p v) as [?|[]];
             cbn [mbind result_bind bind mret result_ret except_value_type except_value] in *;
             try discriminate
         | H : context [match ?o with Some _ => _ | None => _ end] |- _ =>
             destruct o eqn:?;
             cbn [mbind result_bind bind mret result_ret except_value_type except_value] in *;
             try discriminate
         end.
  all: unfold mret, result_ret in *.
  all: injection P as <-.
  all: repeat match goal with
         | E : Ok _ = Ok [] |- _ => injection E as E
         | E : when ?c _ ++ _ = [] |- _ =>
             destruct c eqn:?; cbn [when app] in E; [discriminate E|]
         | E : when ?c _ = [] |- _ =>
             destruct c eqn:?; cbn [when app] in E; [discriminate E|clear E]
         | E : [] = [] |- _ => clear E
         end.
  all: unfold dt_lt in *.
  all: repeat match goal with
         | H : dt_gt datetime_2020_1_1 _ = false |- _ =>
             unfold dt_gt in H; cbn [date_ord time_of_day] in H
         | H : (_ <? _) = false |- _ => apply Z.ltb_ge in H
         | H : (_ <=? _) = false |- _ => apply Z.leb_gt in H
         | H : (_ =? _) = false |- _ => apply Z.eqb_neq in H
         | H : negb _ = false |- _ => apply negb_false_iff in H
         | H : _ || _ = false |- _ => apply orb_false_iff in H as [? ?]
         end.
  all: unfold within_limits;
    cbn [school_name session_type location activator year_group male_participants
         female_participants teacher_feedback session_date session_duration
         latitude longitude].
  all: repeat match goal with |- _ /\ _ => split end; try lia; try assumption.
  all: try (intros ? [=]; fail).
  all: try (intros ? [= <-]; split; assumption).
  all: try (eexists; split; [eassumption|split; assumption]).
  all: try (intros ? [= <-];
            match goal with |- len (strip ?s) <= _ => pose proof (strip_len s); lia end).
  all: match goal with
       | H : _ = true |- _ ∈ valid_year_groups => apply in_strs_member; exact H
       end.
Qed.

(** Every record that [create_session] reports as recorded is stored under
    the id of the response and is within the limits of the validator: the
    texts are stored stripped with the lengths the rules ask for, the counts
    are between 0 and 1000 with a positive sum, the duration is between 1
    and 480, the date is one that [strptime] reads and that is neither
    after [now] nor before 2020-01-01. *)
Theorem recorded_session_within_limits (fk_default : bool)
    (data : gmap string value) (w w' : world) (new_id : Z) :
  create fk_default data w = (SessionRecorded new_id, w') ->
  exists row,
    sessions (db w') !! new_id = Some row
    /\ within_limits strptime_ymd now row.
Proof.
  unfold create_session.
  destruct (decide (data = ∅)); [discriminate|].
  destruct (validate data) as [[|m errs]|e] eqn:V; try discriminate.
  destruct (insert_parameters _ _ _ data) as [row|e] eqn:P; [|discriminate].
  unfold insert_session, connect, commit. cbn [conn_db fst snd].
  intros [= <- <-]. exists row. cbn [db sessions].
  split; [apply lookup_insert_eq|].
  exact (insert_parameters_within_limits data current_timestamp row V P).
Qed.

(** Every update that [update_session] reports as done leaves the addressed
    session within the limits of the validator. *)
Theorem updated_session_within_limits (fk_default : bool) (sid : Z)
    (data : gmap string value) (w w' : world) :
  update fk_default sid data w = (Message "Session updated successfully", w') ->
  exists row,
    sessions (db w') !! sid = Some row
    /\ within_limits strptime_ymd now row.
Proof.
  unfold update_session.
  destruct (decide (data = ∅)); [discriminate|].
  destruct (validate data) as [[|m errs]|e] eqn:V; try discriminate.
  unfold connect. cbn [conn_db].
  destruct (sessions (db w) !! sid) as [old|] eqn:Hold; [|discriminate].
  destruct (insert_parameters _ _ _ data) as [p|e] eqn:P; [|discriminate].
  intros [= <-]. unfold sql_update_session, commit. cbn [conn_db db sessions].
  rewrite lookup_alter_eq, Hold. cbn [fmap option_fmap option_map].
  eexists. split; [reflexivity|].
  exact (insert_parameters_within_limits data "" p V P).
Qed.

(** A field that the validator and the INSERT do not read changes neither
    the validator's answer nor the stored record. *)
Theorem unknown_field_ignored (data : gmap string value) (k : string)
    (v : value) :
  k ∉ required_fields ->
  k ∉ ["teacher_feedback"; "latitude"; "longitude"] ->
  validate (<[k := v]> data) = validate data
  /\ insert_parameters int_of_str float_of_str current_timestamp (<[k := v]> data)
     = insert_parameters int_of_str float_of_str current_timestamp data.
Proof.
  intros Hr Ho. unfold required_fields in Hr.
  repeat (apply not_elem_of_cons in Hr as [? Hr]).
  repeat (apply not_elem_of_cons in Ho as [? Ho]).
  unfold validate_session_data, insert_parameters, required_errors, required_fields,
    required_missing, school_name_errors, session_type_errors, location_errors,
    activator_errors, year_group_errors, male_errors, female_errors, total_errors,
    duration_errors, session_date_errors, latitude_errors, longitude_errors,
    teacher_feedback_errors.
  cbn [flat_map]. unfold get, get_default, index.
  rewrite !lookup_insert_ne by assumption.
  split; reflexivity.
Qed.
End Limits.

Lemma recorded_session_within_limits_witness :
  exists new_id w',
    sample_create Sample.auckland empty_store = (SessionRecorded new_id, w')
    /\ exists row,
         sessions (db w') !! new_id = Some row
         /\ within_limits Sample.strptime_ymd Sample.noon_2025_01_16 row.
Proof.
  eexists _, _.
  assert (H : sample_create Sample.auckland empty_store
              = (SessionRecorded 1, (sample_create Sample.auckland empty_store).2))
    by (vm_compute; reflexivity).
  split; [exact H|].
  exact (recorded_session_within_limits Sample.int_of_str Sample.float_of_str
           Sample.strptime_ymd Sample.noon_2025_01_16 "2025-01-16 12:00:00"
           SQLITE_DEFAULT_FOREIGN_KEYS Sample.auckland empty_store _ 1 H).
Defined.

Lemma updated_session_within_limits_witness :
  exists w',
    update_session Sample.int_of_str Sample.float_of_str Sample.strptime_ymd
      Sample.noon_2025_01_16 SQLITE_DEFAULT_FOREIGN_KEYS 1 Sample.auckland
      store_with_photo
    = (Message "Session updated successfully", w')
    /\ exists row,
         sessions (db w') !! 1 = Some row
         /\ within_limits Sample.strptime_ymd Sample.noon_2025_01_16 row.
Proof.
  eexists.
  assert (H : update_session Sample.int_of_str Sample.float_of_str
                Sample.strptime_ymd Sample.noon_2025_01_16
                SQLITE_DEFAULT_FOREIGN_KEYS 1 Sample.auckland store_with_photo
              = (Message "Session updated successfully",
                 (update_session Sample.int_of_str Sample.float_of_str
                    Sample.strptime_ymd Sample.noon_2025_01_16
                    SQLITE_DEFAULT_FOREIGN_KEYS 1 Sample.auckland
                    store_with_photo).2))
    by (vm_compute; reflexivity).
  split; [exact H|].
  exact (updated_session_within_limits Sample.int_of_str Sample.float_of_str
           Sample.strptime_ymd Sample.noon_2025_01_16
           SQLITE_DEFAULT_FOREIGN_KEYS 1 Sample.auckland store_with_photo _ H).
Defined.

Lemma unknown_field_ignored_witness :
  ("notes" ∉ required_fields)
  /\ ("notes" ∉ ["teacher_feedback"; "latitude"; "longitude"])
  /\ Sample.validate (<["notes" := VStr "windy"]> Sample.auckland)
     = Sample.validate Sample.auckland.
Proof.
  assert (Hr : "notes" ∉ required_fields)
    by (intros H; apply list_elem_of_In in H; cbn in H; intuition discriminate).
  assert (Ho : "notes" ∉ ["teacher_feedback"; "latitude"; "longitude"])
    by (intros H; apply list_elem_of_In in H; cbn in H; intuition discriminate).
  split; [exact Hr|]. split; [exact Ho|].
  exact (proj1 (unknown_field_ignored Sample.int_of_str Sample.float_of_str
                  Sample.strptime_ymd Sample.noon_2025_01_16 ""
                  Sample.auckland "notes" (VStr "windy") Hr Ho)).
Defined.
